(** * The item-catalog service of mercari-build-training-2023 (Go)

    A shallow embedding of the three generations of the service that live
    in the repository:

    - [V0]: the earliest flat-file program (items.json, no extension check,
      no get-by-id);
    - [V1]: go/app/main.go, the flat-file program with the extension check
      and the positional get-by-id;
    - [V2]: the relational program (sqlite table [items], keyword search).

    The handlers are written as functions over an explicit world (file
    system, database, standard output).  The Go standard-library functions
    the handlers call are modelled in [GoStd]; whether a call fails is
    decided by the world it runs in, so the error branches of the source
    are branches of the model. *)

From Stdlib Require Import ZArith Lia Bool List Ascii String DecimalString.
From Stdlib Require DecimalNat.
From stdpp Require Import base option list strings gmap.

(** ** Go standard library *)

Module GoStd.

(** A Go string is a sequence of bytes: [string], one [ascii] per byte. *)

Definition bytes_of (s : string) : list ascii := list_ascii_of_string s.

(** [strings.HasSuffix(s, suffix)]:
    [len(s) >= len(suffix) && s[len(s)-len(suffix):] == suffix]. *)
Definition HasSuffix (s suffix : string) : bool :=
  (String.length suffix <=? String.length s)%nat &&
  String.eqb
    (substring (String.length s - String.length suffix) (String.length suffix) s)
    suffix.

(** [path.Ext(path)]: scan from the last byte towards the front, stop at a
    slash, return the path from the first dot met on.  [acc] is
    [path[i+1:]], [rest] is [path[:i+1]] reversed. *)
Fixpoint ext_scan (rest : list ascii) (acc : string) : string :=
  match rest with
  | [] => ""
  | c :: rest' =>
      if Ascii.eqb c "/" then ""
      else if Ascii.eqb c "." then String c acc
      else ext_scan rest' (String c acc)
  end.

Definition Ext (path : string) : string := ext_scan (rev (bytes_of path)) "".

(** [path.Clean], on the slash-separated elements of the path: empty and
    "." elements are dropped, ".." removes the element before it when
    there is one to remove, and is kept in front of a path that is not
    rooted otherwise; the empty result is ".". *)
Fixpoint split_slash (s : string) : list string :=
  match s with
  | "" => [""]
  | String c r =>
      if Ascii.eqb c "/" then "" :: split_slash r
      else match split_slash r with
           | h :: t => String c h :: t
           | [] => [String c ""]
           end
  end.

(** [out] holds the elements written so far, last one first; [dd] counts
    the leading ".." elements among them, which cannot be removed. *)
Fixpoint clean_elems (rooted : bool) (elems : list string)
    (out : list string) (dd : nat) : list string :=
  match elems with
  | [] => rev out
  | e :: elems' =>
      if String.eqb e "" then clean_elems rooted elems' out dd
      else if String.eqb e "." then clean_elems rooted elems' out dd
      else if String.eqb e ".." then
        if (dd <? List.length out)%nat then clean_elems rooted elems' (tl out) dd
        else if rooted then clean_elems rooted elems' out dd
        else clean_elems rooted elems' (".." :: out) (S dd)
      else clean_elems rooted elems' (e :: out) dd
  end.

Fixpoint join_slash (l : list string) : string :=
  match l with
  | [] => ""
  | [e] => e
  | e :: l' => e +:+ "/" +:+ join_slash l'
  end.

Definition Clean (path : string) : string :=
  match path with
  | "" => "."
  | String c _ =>
      let rooted := Ascii.eqb c "/" in
      let body := join_slash (clean_elems rooted (split_slash path) [] 0) in
      if rooted then "/" +:+ body
      else if String.eqb body "" then "." else body
  end.

(** [path.Join(a, b)]: the non-empty arguments joined by a slash, cleaned;
    the empty string when both are empty. *)
Definition Join (a b : string) : string :=
  if String.eqb a "" then (if String.eqb b "" then "" else Clean b)
  else if String.eqb b "" then Clean a
  else Clean (a +:+ "/" +:+ b).

(** [strconv.Itoa] on the indices of a slice (never negative). *)
Definition Itoa (i : nat) : string := NilEmpty.string_of_uint (Nat.to_uint i).

(** [fmt.Sprintf("%x", b)] for a byte array: two lower-case hexadecimal
    digits per byte. *)
Definition hex_digit (n : Z) : ascii :=
  if (n <? 10)%Z then ascii_of_N (Z.to_N (48 + n))
  else ascii_of_N (Z.to_N (87 + n)).

Fixpoint hex (b : list Z) : string :=
  match b with
  | [] => ""
  | x :: b' =>
      String (hex_digit (Z.land (Z.shiftr x 4) 15))
        (String (hex_digit (Z.land x 15)) (hex b'))
  end.

End GoStd.

(** ** crypto/sha256 *)

Module SHA256.

Definition w32 (x : Z) : Z := Z.land x (Z.ones 32).
Definition add32 (x y : Z) : Z := w32 (x + y).
Definition rotr (n x : Z) : Z :=
  Z.lor (Z.shiftr x n) (w32 (Z.shiftl x (32 - n))).
Definition not32 (x : Z) : Z := Z.lxor x (Z.ones 32).

Definition Ch (x y z : Z) : Z := Z.lxor (Z.land x y) (Z.land (not32 x) z).
Definition Maj (x y z : Z) : Z :=
  Z.lxor (Z.lxor (Z.land x y) (Z.land x z)) (Z.land y z).
Definition Sigma0 (x : Z) : Z := Z.lxor (Z.lxor (rotr 2 x) (rotr 13 x)) (rotr 22 x).
Definition Sigma1 (x : Z) : Z := Z.lxor (Z.lxor (rotr 6 x) (rotr 11 x)) (rotr 25 x).
Definition sigma0 (x : Z) : Z := Z.lxor (Z.lxor (rotr 7 x) (rotr 18 x)) (Z.shiftr x 3).
Definition sigma1 (x : Z) : Z := Z.lxor (Z.lxor (rotr 17 x) (rotr 19 x)) (Z.shiftr x 10).

(** The constants are the first 32 bits of the fractional parts of the
    square roots (initial state) and cube roots (round constants) of the
    first primes. *)
Definition primes : list Z :=
  [2; 3; 5; 7; 11; 13; 17; 19; 23; 29; 31; 37; 41; 43; 47; 53; 59; 61; 67;
   71; 73; 79; 83; 89; 97; 101; 103; 107; 109; 113; 127; 131; 137; 139; 149;
   151; 157; 163; 167; 173; 179; 181; 191; 193; 197; 199; 211; 223; 227; 229;
   233; 239; 241; 251; 257; 263; 269; 271; 277; 281; 283; 293; 307; 311]%Z.

Fixpoint cbrt_bits (n : Z) (b : nat) (r : Z) : Z :=
  match b with
  | O => r
  | S b' =>
      let r' := (r + Z.shiftl 1 (Z.of_nat b'))%Z in
      cbrt_bits n b' (if (r' * r' * r' <=? n)%Z then r' else r)
  end.

Definition frac_sqrt (p : Z) : Z := w32 (Z.sqrt (Z.shiftl p 64)).
Definition frac_cbrt (p : Z) : Z := w32 (cbrt_bits (Z.shiftl p 96) 40 0).

Definition H0 : list Z := Eval vm_compute in List.map frac_sqrt (firstn 8 primes).
Definition K : list Z := Eval vm_compute in List.map frac_cbrt primes.

(** Padding: a 1 bit, zeros up to 56 modulo 64 bytes, the bit length on
    8 bytes, big-endian. *)
Fixpoint be_bytes (n : nat) (x : Z) : list Z :=
  match n with
  | O => []
  | S n' => Z.land (Z.shiftr x (8 * Z.of_nat n')) 255 :: be_bytes n' x
  end.

Definition pad (msg : list Z) : list Z :=
  let len := Z.of_nat (List.length msg) in
  let zeros := Z.to_nat ((55 - len) mod 64) in
  msg ++ [128%Z] ++ repeat 0%Z zeros ++ be_bytes 8 (8 * len).

Fixpoint words (n : nat) (b : list Z) : list Z :=
  match n, b with
  | S n', b0 :: b1 :: b2 :: b3 :: b' =>
      (Z.shiftl b0 24 + Z.shiftl b1 16 + Z.shiftl b2 8 + b3)%Z :: words n' b'
  | _, _ => []
  end.

(** Message schedule; [w] holds the words computed so far, newest first. *)
Fixpoint schedule (n : nat) (w : list Z) : list Z :=
  match n with
  | O => rev w
  | S n' =>
      let x := add32 (add32 (sigma1 (nth 1 w 0%Z)) (nth 6 w 0%Z))
                     (add32 (sigma0 (nth 14 w 0%Z)) (nth 15 w 0%Z)) in
      schedule n' (x :: w)
  end.

Definition round (s : list Z) (kw : Z * Z) : list Z :=
  match s with
  | [a; b; c; d; e; f; g; h] =>
      let t1 := add32 (add32 (add32 h (Sigma1 e)) (add32 (Ch e f g) (fst kw))) (snd kw) in
      let t2 := add32 (Sigma0 a) (Maj a b c) in
      [add32 t1 t2; a; b; c; add32 d t1; e; f; g]
  | _ => s
  end.

Definition compress (s : list Z) (block : list Z) : list Z :=
  let w := schedule 48 (rev (words 16 block)) in
  let s' := fold_left round (combine K w) s in
  List.map (fun p => add32 (fst p) (snd p)) (combine s s').

Fixpoint blocks (n : nat) (s : list Z) (b : list Z) : list Z :=
  match n with
  | O => s
  | S n' => blocks n' (compress s (firstn 64 b)) (skipn 64 b)
  end.

(** [sha256.Sum256]: the 32 bytes of the digest. *)
Definition Sum256 (data : string) : list Z :=
  let msg := pad (List.map (fun c => Z.of_N (N_of_ascii c)) (GoStd.bytes_of data)) in
  let s := blocks (List.length msg / 64) H0 msg in
  concat (List.map (be_bytes 4) s).

End SHA256.


(** ** The world the handlers run in *)

(** Go [error] values, by the call that produces them. *)
Inductive error : Type :=
| PathError (op path reason : string)    (* os, io/ioutil *)
| Errorf (msg : string)                  (* fmt.Errorf *)
| ErrMissingFile                         (* http.ErrMissingFile, from FormFile *)
| ErrReader                              (* a failed read of an uploaded file *)
| ErrNoRows                              (* sql.ErrNoRows *)
| SQLError (msg : string)                (* database/sql and the sqlite driver *)
| HTTPError (code : Z).                  (* echo.HTTPError *)

Definition Error (e : error) : string :=
  match e with
  | PathError op path reason => op +:+ " " +:+ path +:+ ": " +:+ reason
  | Errorf msg => msg
  | ErrMissingFile => "http: no such file"
  | ErrReader => "unexpected EOF"
  | ErrNoRows => "sql: no rows in result set"
  | SQLError msg => msg
  | HTTPError code => "code=" +:+ GoStd.Itoa (Z.to_nat code)
  end.

(** A function that returns a value or panics. *)
Inductive go (A : Type) : Type :=
| Val (a : A)
| Panics.
Arguments Val {A} a.
Arguments Panics {A}.

(** *** File system

    Paths are the keys as the program spells them, relative to the working
    directory.  A regular file carries its permission to read and to write
    and its bytes. *)
Inductive node : Type :=
| Reg (readable writable : bool) (data : string)
| Dir.

(** The directory part of a path (up to the last slash), "." without one. *)
Definition parent (p : string) : string :=
  match rev (GoStd.split_slash p) with
  | _ :: (_ :: _) as front => GoStd.Clean (GoStd.join_slash (rev front))
  | _ => "."
  end.

(** [os.Open]: the node behind the handle. *)
Definition os_Open (name : string) (fs : gmap string node) : node + error :=
  match fs !! name with
  | None => inr (PathError "open" name "no such file or directory")
  | Some (Reg false _ _) => inr (PathError "open" name "permission denied")
  | Some n => inl n
  end.

(** [ioutil.ReadAll] on an open handle. *)
Definition ioutil_ReadAll (name : string) (f : node) : string + error :=
  match f with
  | Reg _ _ data => inl data
  | Dir => inr (PathError "read" name "is a directory")
  end.

(** [os.Stat]: fails exactly on a path that names nothing. *)
Definition os_Stat (name : string) (fs : gmap string node) : node + error :=
  match fs !! name with
  | None => inr (PathError "stat" name "no such file or directory")
  | Some n => inl n
  end.

(** Opening for writing with O_CREATE and O_TRUNC ([ioutil.WriteFile],
    [os.Create]): an existing regular file must grant the access asked
    for and is emptied, a missing one is created in an existing directory. *)
Definition open_trunc (op : string) (need_read : bool) (name : string)
    (fs : gmap string node) : gmap string node + error :=
  match fs !! name with
  | Some (Reg r w _) =>
      if w && (r || negb need_read) then inl (<[name := Reg r w ""]> fs)
      else inr (PathError op name "permission denied")
  | Some Dir => inr (PathError op name "is a directory")
  | None =>
      match fs !! parent name with
      | Some Dir => inl (<[name := Reg true true ""]> fs)
      | _ => inr (PathError op name "no such file or directory")
      end
  end.

Definition write_data (name data : string) (fs : gmap string node)
    : gmap string node :=
  match fs !! name with
  | Some (Reg r w old) => <[name := Reg r w (old +:+ data)]> fs
  | _ => fs
  end.

Definition ioutil_WriteFile (name data : string) (fs : gmap string node)
    : gmap string node + error :=
  match open_trunc "open" false name fs with
  | inr err => inr err
  | inl fs' => inl (write_data name data fs')
  end.

Definition os_Create (name : string) (fs : gmap string node)
    : gmap string node + error :=
  open_trunc "open" true name fs.

(** *** Uploaded files ([multipart.FileHeader]) *)

(** What [image.Open()] gives: the bytes that can be read, and whether the
    read ends in an error instead of the end of the file. *)
Record reader : Type := { r_data : string; r_fails : bool }.

Record FileHeader : Type := {
  Filename : string;
  Open : reader + error
}.

(** [io.Copy(dst, src)]: what could be read is written. *)
Definition io_Copy (dst : string) (src : reader) (fs : gmap string node)
    : option error * gmap string node :=
  (if r_fails src then Some ErrReader else None, write_data dst (r_data src) fs).

(** *** Database (the sqlite file ../../db/items.db)

    A row of table [items]; a TEXT column may hold NULL ([None]). *)
Definition row : Type := Z * option string * option string * option string.

Definition row_id (r : row) : Z := r.1.1.1.
Definition row_name (r : row) : option string := r.1.1.2.

Record database : Type := {
  driver_ok : bool;          (* the driver name is registered: sql.Open succeeds *)
  db_file_ok : bool;         (* the database file can be opened: a connection exists *)
  read_only : bool;          (* statements that write fail *)
  items_table : option (list row);   (* None: no table [items] yet *)
  seq : Z                    (* largest id AUTOINCREMENT has given out *)
}.

Definition sql_Open (db : database) : unit + error :=
  if driver_ok db then inl tt
  else inr (SQLError "sql: unknown driver sqlite3 (forgotten import?)").

(** *** World and requests *)

Record world : Type := {
  fs : gmap string node;
  db : database;
  out : list string          (* lines printed and logged, oldest first *)
}.

Definition set_fs (w : world) (fs' : gmap string node) : world :=
  {| fs := fs'; db := db w; out := out w |}.
Definition set_db (w : world) (db' : database) : world :=
  {| fs := fs w; db := db'; out := out w |}.

(** [fmt.Println(a, b)]: the operands separated by a space. *)
Definition Println (a b : string) (w : world) : world :=
  {| fs := fs w; db := db w; out := out w ++ [a +:+ " " +:+ b] |}.

(** [c.Logger().Infof] and the like: one line, tagged with its level.
    [main] sets the level of the logger to INFO, which silences Debugf. *)
Definition Logf (level msg : string) (w : world) : world :=
  if String.eqb level "DEBUG" then w
  else {| fs := fs w; db := db w; out := out w ++ [level +:+ " " +:+ msg] |}.

(** [echo.Context], as far as the handlers read it. *)
Record Context : Type := {
  FormValue : string -> string;
  FormFile : string -> FileHeader + error;
  Param : string -> string;
  QueryParam : string -> string
}.

(** What a handler sends. *)
Inductive body (I : Type) : Type :=
| Message (msg : string)       (* Response{Message: msg} *)
| ItemsOf (l : list I)         (* Items{Items: l} *)
| OneItem (i : I)
| ItemList (l : list I)        (* a bare []Item *)
| ErrBody (e : error)
| Null
| Blob (data : string).        (* the bytes of a file *)
Arguments Message {I} msg.
Arguments ItemsOf {I} l.
Arguments OneItem {I} i.
Arguments ItemList {I} l.
Arguments ErrBody {I} e.
Arguments Null {I}.
Arguments Blob {I} data.

(** How a handler ends: it has written a response ([c.JSON], [c.File]),
    it returns an error to the framework, or it panics. *)
Inductive outcome (I : Type) : Type :=
| Respond (code : Z) (b : body I)
| Return (e : error)
| Panic.
Arguments Respond {I} code b.
Arguments Return {I} e.
Arguments Panic {I}.

(** The status the client sees: echo's default error handler answers an
    [HTTPError] with its code and any other error with 500; the Recover
    middleware turns a panic into an error. *)
Definition status {I : Type} (o : outcome I) : Z :=
  match o with
  | Respond code _ => code
  | Return (HTTPError code) => code
  | Return _ => 500
  | Panic => 500
  end.

Definition StatusOK : Z := 200.
Definition StatusBadRequest : Z := 400.
Definition StatusNotFound : Z := 404.
Definition StatusInternalServerError : Z := 500.

(** [c.File(file)]: the bytes of a readable regular file; the index page
    of a directory; [echo.ErrNotFound] otherwise. *)
Definition c_File {I : Type} (file : string) (fs : gmap string node) : outcome I :=
  match os_Open file fs with
  | inr _ => Return (HTTPError StatusNotFound)
  | inl (Reg _ _ data) => Respond StatusOK (Blob data)
  | inl Dir =>
      match os_Open (GoStd.Join file "index.html") fs with
      | inl (Reg _ _ data) => Respond StatusOK (Blob data)
      | _ => Return (HTTPError StatusNotFound)
      end
  end.

(** [encoding/json] for a type [T]: [json_Marshal] returns the document or
    an error, [json_Unmarshal data v] returns what decoding [data] into a
    variable holding [v] leaves in it, and the error. *)
Class JSON (T : Type) : Type := {
  json_Marshal : T -> string + error;
  json_Unmarshal : string -> T -> T * option error
}.

(** ** What the three programs share, line for line *)

Module Shared.

Definition ImgDir : string := "images".
Definition ImgDirRelative : string := "../" +:+ ImgDir.

Section Shared.
Context {I : Type}.

Definition root (c : Context) (w : world) : outcome I * world :=
  (Respond StatusOK (Message "Hello, world!"), w).

Definition getImg (c : Context) (w : world) : outcome I * world :=
  (* Create image path *)
  let imgPath := GoStd.Join ImgDir (Param c "imageFilename") in
  if negb (GoStd.HasSuffix imgPath ".jpg") then
    (Respond StatusBadRequest (Message "Image path does not end with .jpg"), w)
  else
    match os_Stat imgPath (fs w) with
    | inr err =>
        let w := Logf "DEBUG" ("Image not found: " +:+ imgPath) w in
        let imgPath := GoStd.Join ImgDir "default.jpg" in
        (c_File imgPath (fs w), w)
    | inl _ => (c_File imgPath (fs w), w)
    end.

End Shared.

Definition saveImageToLocal (image : FileHeader) (w : world) : world :=
  match Open image with
  | inr err => Println "Cannot open image: " (Error err) w
  | inl src =>
      let hashedName := SHA256.Sum256 (Filename image) in
      let imgPath := GoStd.Join ImgDirRelative (GoStd.hex hashedName +:+ ".jpg") in
      match os_Create imgPath (fs w) with
      | inr err => Println "Cannot create image: " (Error err) w
      | inl fs' =>
          let w := set_fs w fs' in
          match io_Copy imgPath src (fs w) with
          | (Some err, fs') => Println "Cannot copy image: " (Error err) (set_fs w fs')
          | (None, fs') => set_fs w fs'
          end
      end
  end.

End Shared.

(** ** The earliest program: flat file, no extension check *)

Module V0.

Record Item : Type := {
  Name : string;
  Category : string;
  ImageFileName : string
}.

Record Items : Type := { Items_ : list Item }.

Section Handlers.
Context {json : JSON Items}.

Definition root := Shared.root (I := Item).
Definition getImg := Shared.getImg (I := Item).
Definition saveImageToLocal := Shared.saveImageToLocal.

Definition updateJson (name category : string) (image : FileHeader) (w : world)
    : world :=
  let hashedFileName := SHA256.Sum256 (Filename image) in
  match os_Open "items.json" (fs w) with
  | inr err => Println "Cannot open the json file: " (Error err) w
  | inl jsonFile =>
      match ioutil_ReadAll "items.json" jsonFile with
      | inr err => Println "Cannot read data: " (Error err) w
      | inl jsonData =>
          let items := (json_Unmarshal jsonData {| Items_ := [] |}).1 in
          let items :=
            {| Items_ := Items_ items ++
                 [{| Name := name; Category := category;
                     ImageFileName := GoStd.hex hashedFileName +:+ ".jpg" |}] |} in
          match json_Marshal items with
          | inr err => Println "Cannot marshal data: " (Error err) w
          | inl marshaled =>
              match ioutil_WriteFile "items.json" marshaled (fs w) with
              | inr err => Println "Cannot write data: " (Error err) w
              | inl fs' => set_fs w fs'
              end
          end
      end
  end.

Definition addItem (c : Context) (w : world) : outcome Item * world :=
  (* Get form data *)
  let name := FormValue c "name" in
  let category := FormValue c "category" in
  match FormFile c "image" with
  | inr error => (Respond StatusBadRequest (ErrBody error), w)
  | inl image =>
      let w := Logf "INFO" ("Receive item: " +:+ name) w in
      let w := Logf "INFO" ("Receive category: " +:+ category) w in
      let w := Logf "INFO" ("Receive image: " +:+ Filename image) w in
      let w := updateJson name category image w in
      let w := saveImageToLocal image w in
      let message := "item received: " +:+ name in
      (Respond StatusOK (Message message), w)
  end.

Definition getItems (c : Context) (w : world) : outcome Item * world :=
  match os_Open "items.json" (fs w) with
  | inr err => (Return err, Println "Cannot open the json file" (Error err) w)
  | inl jsonFile =>
      match ioutil_ReadAll "items.json" jsonFile with
      | inr err => (Return err, Println "Cannot read data" (Error err) w)
      | inl jsonData =>
          let items := (json_Unmarshal jsonData {| Items_ := [] |}).1 in
          (Respond StatusOK (ItemsOf (Items_ items)), w)
      end
  end.

End Handlers.
End V0.

(** ** go/app/main.go: flat file, extension check, positional get-by-id *)

Module V1.

Definition ItemFile : string := "items.json".

Record Item : Type := {
  Name : string;
  Category : string;
  ImageFileName : string
}.

Record Items : Type := { Items_ : list Item }.

Section Handlers.
Context {json : JSON Items}.

Definition root := Shared.root (I := Item).
Definition getImg := Shared.getImg (I := Item).
Definition saveImageToLocal := Shared.saveImageToLocal.

Definition readItems (w : world) : string + error :=
  match os_Open ItemFile (fs w) with
  | inr err => inr err
  | inl jsonFile =>
      match ioutil_ReadAll ItemFile jsonFile with
      | inr err => inr err
      | inl jsonData => inl jsonData
      end
  end.

Definition updateJson (name category : string) (image : FileHeader) (w : world)
    : option error * world :=
  let hashedFileName := SHA256.Sum256 (Filename image) in
  let ext := GoStd.Ext (Filename image) in
  if negb (String.eqb ext ".jpg") then
    (Some (Errorf "image extension is not jpg"), w)
  else
    match os_Open ItemFile (fs w) with
    | inr err => (Some err, w)
    | inl jsonFile =>
        match readItems w with
        | inr err => (Some err, w)
        | inl jsonData =>
            let items := (json_Unmarshal jsonData {| Items_ := [] |}).1 in
            let items :=
              {| Items_ := Items_ items ++
                   [{| Name := name; Category := category;
                       ImageFileName := GoStd.hex hashedFileName +:+ ext |}] |} in
            match json_Marshal items with
            | inr err => (Some err, w)
            | inl marshaled =>
                match ioutil_WriteFile ItemFile marshaled (fs w) with
                | inr err => (Some err, w)
                | inl fs' => (None, set_fs w fs')
                end
            end
        end
    end.

(** The value [updateJson] returns is dropped by its caller. *)
Definition addItem (c : Context) (w : world) : outcome Item * world :=
  (* Get form data *)
  let name := FormValue c "name" in
  let category := FormValue c "category" in
  match FormFile c "image" with
  | inr error => (Respond StatusBadRequest (ErrBody error), w)
  | inl image =>
      let w := Logf "INFO" ("Receive item: " +:+ name) w in
      let w := Logf "INFO" ("Receive category: " +:+ category) w in
      let w := Logf "INFO" ("Receive image: " +:+ Filename image) w in
      let w := (updateJson name category image w).2 in
      let w := saveImageToLocal image w in
      let message := "item received: " +:+ name in
      (Respond StatusOK (Message message), w)
  end.

Definition getItems (c : Context) (w : world) : outcome Item * world :=
  match os_Open ItemFile (fs w) with
  | inr err => (Respond StatusBadRequest (ErrBody err), w)
  | inl jsonFile =>
      match readItems w with
      | inr err => (Respond StatusInternalServerError (ErrBody err), w)
      | inl jsonData =>
          let items := (json_Unmarshal jsonData {| Items_ := [] |}).1 in
          (Respond StatusOK (ItemsOf (Items_ items)), w)
      end
  end.

(** [for i, item := range items.Items], from index [i] on. *)
Fixpoint range_find (id : string) (i : nat) (l : list Item) : option Item :=
  match l with
  | [] => None
  | item :: l' =>
      if String.eqb (GoStd.Itoa i) id then Some item
      else range_find id (S i) l'
  end.

Definition getItemsByID (c : Context) (w : world) : outcome Item * world :=
  let id := Param c "itemID" in
  match os_Open ItemFile (fs w) with
  | inr err => (Respond StatusBadRequest (ErrBody err), w)
  | inl jsonFile =>
      match readItems w with
      | inr err => (Respond StatusInternalServerError (ErrBody err), w)
      | inl jsonData =>
          let items := (json_Unmarshal jsonData {| Items_ := [] |}).1 in
          match range_find id 0 (Items_ items) with
          | Some item => (Respond StatusOK (OneItem item), w)
          | None => (Respond StatusNotFound Null, w)
          end
      end
  end.

End Handlers.
End V1.

(** ** SQLite as the relational program uses it *)

Module SQLite.

(** *** LIKE

    The engine's [likeFunc], without ESCAPE and with its defaults.  The
    pattern and the text are taken as C strings, so each ends before its
    first zero byte, and are read one character at a time by
    [sqlite3Utf8Read]: a byte of 0xC0 or more starts a character that takes
    the continuation bytes (0x80 to 0xBF) that follow it, any other byte is
    a character of its own. *)
Definition is_lead (c : ascii) : bool := (192 <=? N_of_ascii c)%N.
Definition is_cont (c : ascii) : bool :=
  (128 <=? N_of_ascii c)%N && (N_of_ascii c <? 192)%N.

Fixpoint absorb (gs : list (list ascii)) : list ascii * list (list ascii) :=
  match gs with
  | [c] :: gs' =>
      if is_cont c then let '(a, r) := absorb gs' in (c :: a, r) else ([], gs)
  | _ => ([], gs)
  end.

(** The bytes of each character. *)
Fixpoint chars_of (b : list ascii) : list (list ascii) :=
  match b with
  | [] => []
  | c :: b' =>
      let gs := chars_of b' in
      if is_lead c then let '(a, r) := absorb gs in (c :: a) :: r
      else [c] :: gs
  end.

(** [sqlite3_value_text]: the bytes before the first zero byte. *)
Fixpoint c_string (b : list ascii) : list ascii :=
  match b with
  | [] => []
  | c :: b' => if (N_of_ascii c =? 0)%N then [] else c :: c_string b'
  end.

Definition byte_val (c : ascii) : Z := Z.of_N (N_of_ascii c).

(** [sqlite3Utf8Trans1], indexed by the lead byte: its payload bits. *)
Definition Utf8Trans1 (c : Z) : Z :=
  if (c <? 224)%Z then Z.land c 31
  else if (c <? 240)%Z then Z.land c 15
  else if (c <? 248)%Z then Z.land c 7
  else if (c <? 252)%Z then Z.land c 3
  else if (c <? 254)%Z then Z.land c 1
  else 0%Z.

(** [sqlite3Utf8Read] on the bytes of one character: the code point, in
    32 bits without sign.  A lone continuation byte is its own code point;
    an overlong form, a surrogate, 0xFFFE and 0xFFFF read as 0xFFFD. *)
Definition Utf8Read (g : list ascii) : Z :=
  match g with
  | [] => 0%Z
  | c :: cont =>
      if is_lead c then
        let v := fold_left
                   (fun v x => ((Z.shiftl v 6 + Z.land 63 (byte_val x))
                                mod 4294967296)%Z)
                   cont (Utf8Trans1 (byte_val c)) in
        if (v <? 128)%Z || (Z.land v 4294965248 =? 55296)%Z
           || (Z.land v 4294967294 =? 65534)%Z
        then 65533%Z else v
      else byte_val c
  end.

Definition chars (s : string) : list Z :=
  List.map Utf8Read (chars_of (c_string (GoStd.bytes_of s))).

(** [sqlite3Tolower] below 0x80: letters A to Z go to a to z. *)
Definition Tolower (c : Z) : Z :=
  if (65 <=? c)%Z && (c <=? 90)%Z then (c + 32)%Z else c.

(** Two characters match when they are equal, or both below 0x80 and
    equal without case. *)
Definition char_eq (c c2 : Z) : bool :=
  (c =? c2)%Z || ((Tolower c =? Tolower c2)%Z && (c <? 128)%Z && (c2 <? 128)%Z).

Definition matchAll : Z := 37.  (* % *)
Definition matchOne : Z := 95.  (* _ *)

(** [patternCompare] for LIKE: [%] stands for any run of characters, [_]
    for any one character. *)
Fixpoint patternCompare (p s : list Z) : bool :=
  match p with
  | [] => match s with [] => true | _ => false end
  | c :: p' =>
      if (c =? matchAll)%Z then
        (fix any (s : list Z) : bool :=
           if patternCompare p' s then true
           else match s with [] => false | _ :: s' => any s' end) s
      else if (c =? matchOne)%Z then
        match s with [] => false | _ :: s' => patternCompare p' s' end
      else
        match s with
        | [] => false
        | d :: s' => if char_eq c d then patternCompare p' s' else false
        end
  end.

(** Whether the text matches the pattern: [patternCompare] on the
    characters of the two strings. *)
Definition like (pattern text : string) : bool :=
  patternCompare (chars pattern) (chars text).

(** SQLITE_MAX_LIKE_PATTERN_LENGTH, in bytes. *)
Definition LIKE_PATTERN_LENGTH : Z := 50000.

(** [likeFunc], the value of [text LIKE pattern]: a pattern longer than
    the limit is an error, whatever the text, before anything is compared;
    a NULL text gives NULL. *)
Definition likeFunc (pattern : string) (text : option string)
    : option bool + error :=
  if (LIKE_PATTERN_LENGTH <? Z.of_nat (String.length pattern))%Z then
    inr (SQLError "LIKE or GLOB pattern too complex")
  else
    match text with
    | None => inl None
    | Some t => inl (Some (like pattern t))
    end.

(** *** Statements and queries *)

(** The statements the program prepares. *)
Inductive stmt : Type :=
| CreateTable     (* CREATE TABLE IF NOT EXISTS items (id INTEGER PRIMARY KEY
                     AUTOINCREMENT, name TEXT, category TEXT, imageFileName TEXT) *)
| InsertItem.     (* INSERT INTO items (name, category, imageFileName)
                     VALUES (?, ?, ?) *)

(** The queries the program runs, with their one argument. *)
Inductive query : Type :=
| SelectByID      (* SELECT * FROM items WHERE id = ? *)
| SelectNameLike. (* SELECT * FROM items WHERE name LIKE ? *)

(** [sql.Open]: the handle ([None] is the nil pointer) and the error. *)
Definition Open (d : database) : option unit * option error :=
  match sql_Open d with
  | inl _ => (Some tt, None)
  | inr err => (None, Some err)
  end.

(** [db.Prepare]: needs a connection, and the table for an INSERT. *)
Definition Prepare (h : option unit) (q : stmt) (d : database)
    : go (option stmt * option error) :=
  match h with
  | None => Panics
  | Some _ =>
      Val (if negb (db_file_ok d) then
             (None, Some (SQLError "unable to open database file"))
           else
             match q, items_table d with
             | InsertItem, None => (None, Some (SQLError "no such table: items"))
             | _, _ => (Some q, None)
             end)
  end.

Definition max_id (rows : list row) : Z :=
  fold_right Z.max 0%Z (List.map row_id rows).

(** [statement.Exec(args...)]; a nil statement panics. *)
Definition Exec (statement : option stmt) (args : list string) (d : database)
    : go (option error * database) :=
  match statement with
  | None => Panics
  | Some CreateTable =>
      Val (match items_table d with
           | Some _ => (None, d)
           | None =>
               if read_only d then
                 (Some (SQLError "attempt to write a readonly database"), d)
               else
                 (None, {| driver_ok := driver_ok d; db_file_ok := db_file_ok d;
                           read_only := read_only d; items_table := Some [];
                           seq := seq d |})
           end)
  | Some InsertItem =>
      Val (match args, items_table d with
           | [name; category; imageFileName], Some rows =>
               if read_only d then
                 (Some (SQLError "attempt to write a readonly database"), d)
               else
                 let id := (Z.max (seq d) (max_id rows) + 1)%Z in
                 (None, {| driver_ok := driver_ok d; db_file_ok := db_file_ok d;
                           read_only := read_only d;
                           items_table :=
                             Some (rows ++ [(id, Some name, Some category,
                                             Some imageFileName)]);
                           seq := id |})
           | _, Some _ => (Some (SQLError "sql: wrong number of arguments"), d)
           | _, None => (Some (SQLError "no such table: items"), d)
           end)
  end.

Section Engine.
(** The integer SQLite compares an INTEGER column with when the other side
    is this TEXT value; [None] when the text equals no integer. *)
Variable text_as_integer : string -> option Z.

(** The WHERE clause on one row: its value, NULL counting as false, or
    the error of evaluating it. *)
Definition eval_where (q : query) (arg : string) (r : row) : bool + error :=
  match q with
  | SelectByID =>
      inl match text_as_integer arg with
          | Some n => (row_id r =? n)%Z
          | None => false
          end
  | SelectNameLike =>
      match likeFunc arg (row_name r) with
      | inr err => inr err
      | inl (Some b) => inl b
      | inl None => inl false
      end
  end.

Definition selects (q : query) (arg : string) (r : row) : bool :=
  match eval_where q arg r with
  | inl b => b
  | inr _ => false
  end.

(** [*sql.Rows], read to its end: the rows [rows.Next] gives before it
    returns false, and [rows.Err], the error that ended the stepping. *)
Definition Rows : Type := (list row * option error)%type.

(** The statement is stepped row by row in table order; an error of the
    WHERE clause ends the stepping. *)
Fixpoint step (q : query) (arg : string) (rows : list row) : Rows :=
  match rows with
  | [] => ([], None)
  | r :: rows' =>
      match eval_where q arg r with
      | inr err => ([], Some err)
      | inl b =>
          let '(got, err) := step q arg rows' in
          (if b then r :: got else got, err)
      end
  end.

(** [db.Query]: its own error when the statement cannot be prepared,
    otherwise the rows, stepped as they are read. *)
Definition Query (h : option unit) (q : query) (arg : string) (d : database)
    : go (Rows + error) :=
  match h with
  | None => Panics
  | Some _ =>
      Val (if negb (db_file_ok d) then
             inr (SQLError "unable to open database file")
           else
             match items_table d with
             | None => inr (SQLError "no such table: items")
             | Some rows => inl (step q arg rows)
             end)
  end.

End Engine.
End SQLite.

(** ** The relational program *)

Module V2.

Definition ItemFile : string := "items.json".
Definition ItemsTable : string := "../../db/items.db".

Record Item : Type := {
  ID : Z;
  Name : string;
  Category : string;
  ImageFileName : string
}.

Record Items : Type := { Items_ : list Item }.

(** [rows.Scan(&item.ID, &item.Name, &item.Category, &item.ImageFileName)]:
    NULL does not convert to a Go string. *)
Definition Scan (r : row) : Item + error :=
  match r with
  | (id, Some name, Some category, Some imageFileName) =>
      inl {| ID := id; Name := name; Category := category;
             ImageFileName := imageFileName |}
  | _ => inr (SQLError "sql: Scan error: converting NULL to string is unsupported")
  end.

Section Handlers.
Context {json : JSON Items}.
Variable text_as_integer : string -> option Z.

Definition root := Shared.root (I := Item).
Definition getImg := Shared.getImg (I := Item).
Definition saveImageToLocal := Shared.saveImageToLocal.

Definition readItems (w : world) : string + error :=
  match os_Open ItemFile (fs w) with
  | inr err => inr err
  | inl jsonFile =>
      match ioutil_ReadAll ItemFile jsonFile with
      | inr err => inr err
      | inl jsonData => inl jsonData
      end
  end.

Definition addItemToDatabase (name category : string) (image : FileHeader)
    (w : world) : go (option error) * world :=
  let hashedFileName := SHA256.Sum256 (Filename image) in
  let ext := GoStd.Ext (Filename image) in
  if negb (String.eqb ext ".jpg") then
    (Val (Some (Errorf "image extension is not jpg")), w)
  else
    match SQLite.Open (db w) with
    | (_, Some err) => (Val (Some err), w)
    | (h, None) =>
        match SQLite.Prepare h SQLite.CreateTable (db w) with
        | Panics => (Panics, w)
        | Val (_, Some err) => (Val (Some err), w)
        | Val (statement, None) =>
            match SQLite.Exec statement [] (db w) with
            | Panics => (Panics, w)
            | Val (_, d) =>
                let w := set_db w d in
                let item :=
                  {| ID := 0; Name := name; Category := category;
                     ImageFileName := GoStd.hex hashedFileName +:+ ".jpg" |} in
                match SQLite.Prepare h SQLite.InsertItem (db w) with
                | Panics => (Panics, w)
                | Val (statement, _) =>
                    match SQLite.Exec statement
                            [Name item; Category item; ImageFileName item] (db w) with
                    | Panics => (Panics, w)
                    | Val (_, d) => (Val None, set_db w d)
                    end
                end
            end
        end
    end.

Definition addItem (c : Context) (w : world) : outcome Item * world :=
  (* Get form data *)
  let name := FormValue c "name" in
  let category := FormValue c "category" in
  match FormFile c "image" with
  | inr error => (Respond StatusBadRequest (ErrBody error), w)
  | inl image =>
      let w := Logf "INFO" ("Receive item: " +:+ name) w in
      let w := Logf "INFO" ("Receive category: " +:+ category) w in
      let w := Logf "INFO" ("Receive image: " +:+ Filename image) w in
      match addItemToDatabase name category image w with
      | (Panics, w) => (Panic, w)
      | (Val (Some err), w) =>
          let w := Logf "ERROR" ("Failed to add item to database: " +:+ Error err) w in
          (Respond StatusInternalServerError (ErrBody err), w)
      | (Val None, w) =>
          let w := saveImageToLocal image w in
          let message := "item received: " +:+ name in
          (Respond StatusOK (Message message), w)
      end
  end.

Definition getItems (c : Context) (w : world) : outcome Item * world :=
  match os_Open ItemFile (fs w) with
  | inr err => (Respond StatusBadRequest (ErrBody err), w)
  | inl jsonFile =>
      match readItems w with
      | inr err => (Respond StatusInternalServerError (ErrBody err), w)
      | inl jsonData =>
          let items := (json_Unmarshal jsonData {| Items_ := [] |}).1 in
          (Respond StatusOK (ItemsOf (Items_ items)), w)
      end
  end.

(** [db.QueryRow(...)] followed by [row.Scan(...)]: the error of the query
    or of its first step, [sql.ErrNoRows] without a row, the first row
    scanned otherwise. *)
Definition QueryRow_Scan (h : option unit) (id : string) (d : database)
    : go (Item + error) :=
  match SQLite.Query text_as_integer h SQLite.SelectByID id d with
  | Panics => Panics
  | Val (inr err) => Val (inr err)
  | Val (inl ([], Some err)) => Val (inr err)
  | Val (inl ([], None)) => Val (inr ErrNoRows)
  | Val (inl (r :: _, _)) => Val (Scan r)
  end.

Definition getItemByID (c : Context) (w : world) : outcome Item * world :=
  let id := Param c "itemID" in
  match SQLite.Open (db w) with
  | (_, Some err) =>
      (Return err, Logf "ERROR" ("Failed to open database: " +:+ Error err) w)
  | (h, None) =>
      match QueryRow_Scan h id (db w) with
      | Panics => (Panic, w)
      | Val (inr err) =>
          if String.eqb (Error err) (Error ErrNoRows) then
            (Respond StatusNotFound (ErrBody err),
             Logf "ERROR" ("Item not found: " +:+ Error err) w)
          else
            (Respond StatusInternalServerError (ErrBody err),
             Logf "ERROR" ("Failed to get item: " +:+ Error err) w)
      | Val (inl item) => (Respond StatusOK (OneItem item), w)
      end
  end.

(** [for rows.Next() { ... }]: stops at the first row that does not scan. *)
Fixpoint scan_rows (rows : list row) (items : list Item) : list Item + error :=
  match rows with
  | [] => inl items
  | r :: rows' =>
      match Scan r with
      | inr err => inr err
      | inl item => scan_rows rows' (items ++ [item])
      end
  end.

Definition searchItems (c : Context) (w : world) : outcome Item * world :=
  let keyword := QueryParam c "keyword" in
  let '(h, err) := SQLite.Open (db w) in
  let w :=
    match err with
    | Some err => Logf "ERROR" ("Failed to open database: " +:+ Error err) w
    | None => w
    end in
  match SQLite.Query text_as_integer h SQLite.SelectNameLike
          ("%" +:+ keyword +:+ "%") (db w) with
  | Panics => (Panic, w)
  | Val (inr err) =>
      (Respond StatusInternalServerError (ErrBody err),
       Logf "ERROR" ("Failed to get items: " +:+ Error err) w)
  | Val (inl rows) =>
      (* the loop ends when [rows.Next] is false; [rows.Err] is not read *)
      match scan_rows rows.1 [] with
      | inr err =>
          (Respond StatusInternalServerError (ErrBody err),
           Logf "ERROR" ("Failed to get item: " +:+ Error err) w)
      | inl items => (Respond StatusOK (ItemList items), w)
      end
  end.

End Handlers.
End V2.

(** ** A JSON codec to run the handlers with

    It writes the documents [json.Marshal] writes when no string holds
    anything to escape but quotes and backslashes, and reads such
    documents back; any other document is refused, which leaves the target
    as it was. *)

Module PlainJSON.

Definition dquote : ascii := Eval compute in ascii_of_N 34.
Definition quote : string := String dquote EmptyString.

Fixpoint eat (prefix s : string) : option string :=
  match prefix, s with
  | EmptyString, _ => Some s
  | String a p, String b s' => if Ascii.eqb a b then eat p s' else None
  | String _ _, EmptyString => None
  end.

Fixpoint enc_string (s : string) : string :=
  match s with
  | EmptyString => EmptyString
  | String c s' =>
      if Ascii.eqb c dquote || Ascii.eqb c "\"
      then String "\" (String c (enc_string s'))
      else String c (enc_string s')
  end.

(** The text up to the closing quote, and what follows the quote. *)
Fixpoint dec_string (s : string) : option (string * string) :=
  match s with
  | EmptyString => None
  | String c s' =>
      if Ascii.eqb c dquote then Some (EmptyString, s')
      else if Ascii.eqb c "\" then
        match s' with
        | EmptyString => None
        | String d s'' =>
            match dec_string s'' with
            | Some (t, r) => Some (String d t, r)
            | None => None
            end
        end
      else
        match dec_string s' with
        | Some (t, r) => Some (String c t, r)
        | None => None
        end
  end.

(** The digits a number starts with, and what follows them. *)
Fixpoint dec_digits (s : string) : string * string :=
  match s with
  | EmptyString => (EmptyString, EmptyString)
  | String c s' =>
      if (48 <=? N_of_ascii c)%N && (N_of_ascii c <=? 57)%N
      then let '(d, r) := dec_digits s' in (String c d, r)
      else (EmptyString, s)
  end.

Definition dec_nat (s : string) : option (nat * string) :=
  let '(d, r) := dec_digits s in
  match d, NilEmpty.uint_of_string d with
  | String _ _, Some u => Some (Nat.of_uint u, r)
  | _, _ => None
  end.

Definition key (k : string) : string := quote +:+ k +:+ quote +:+ ":".

Definition enc_field (k v : string) : string :=
  key k +:+ quote +:+ enc_string v +:+ quote.

Definition dec_field (k s : string) : option (string * string) :=
  match eat (key k +:+ quote) s with
  | Some s' => dec_string s'
  | None => None
  end.

Section Documents.
Context {I : Type}.
(** Whether the items carry an id, their fields, and their constructor. *)
Variable has_id : bool.
Variable fields : I -> nat * string * string * string.
Variable make : nat -> string -> string -> string -> I.

Definition enc_item (i : I) : string :=
  let '(id, name, category, image) := fields i in
  "{" +:+ (if has_id then key "id" +:+ GoStd.Itoa id +:+ "," else "") +:+
  enc_field "name" name +:+ "," +:+
  enc_field "category" category +:+ "," +:+
  enc_field "imageFileName" image +:+ "}".

Definition dec_id (s : string) : option (nat * string) :=
  if has_id then
    match eat (key "id") s with
    | None => None
    | Some s =>
        match dec_nat s with
        | None => None
        | Some (id, s) =>
            match eat "," s with
            | None => None
            | Some s => Some (id, s)
            end
        end
    end
  else Some (O, s).

Definition dec_item (s : string) : option (I * string) :=
  match eat "{" s with
  | None => None
  | Some s =>
  match dec_id s with
  | None => None
  | Some (id, s) =>
  match dec_field "name" s with
  | None => None
  | Some (name, s) =>
  match eat "," s with
  | None => None
  | Some s =>
  match dec_field "category" s with
  | None => None
  | Some (category, s) =>
  match eat "," s with
  | None => None
  | Some s =>
  match dec_field "imageFileName" s with
  | None => None
  | Some (image, s) =>
  match eat "}" s with
  | None => None
  | Some s => Some (make id name category image, s)
  end end end end end end end end.

Fixpoint enc_items (l : list I) : string :=
  match l with
  | [] => ""
  | [i] => enc_item i
  | i :: l' => enc_item i +:+ "," +:+ enc_items l'
  end.

(** After the opening bracket; [fuel] bounds the number of items. *)
Fixpoint dec_items (fuel : nat) (s : string) : option (list I) :=
  match fuel with
  | O => None
  | S fuel' =>
      match dec_item s with
      | None => None
      | Some (i, r) =>
          match eat "," r with
          | Some r' =>
              match dec_items fuel' r' with
              | Some l => Some (i :: l)
              | None => None
              end
          | None =>
              match eat "]}" r with
              | Some EmptyString => Some [i]
              | _ => None
              end
          end
      end
  end.

(** A nil slice is written as null. *)
Definition enc_doc (l : list I) : string :=
  "{" +:+ key "items" +:+
  match l with
  | [] => "null"
  | _ => "[" +:+ enc_items l +:+ "]"
  end +:+ "}".

Definition dec_doc (s : string) : option (list I) :=
  match eat ("{" +:+ key "items") s with
  | None => None
  | Some r =>
      match eat "null}" r, eat "[]}" r, eat "[" r with
      | Some EmptyString, _, _ => Some []
      | _, Some EmptyString, _ => Some []
      | _, _, Some r' => dec_items (String.length r') r'
      | _, _, _ => None
      end
  end.

End Documents.

#[export] Instance json_V0 : JSON V0.Items := {|
  json_Marshal v :=
    inl (enc_doc false
           (fun i => (O, V0.Name i, V0.Category i, V0.ImageFileName i))
           (V0.Items_ v));
  json_Unmarshal data v :=
    match dec_doc false (fun _ => V0.Build_Item) data with
    | Some l => ({| V0.Items_ := l |}, None)
    | None => (v, Some (Errorf "invalid character"))
    end
|}.

#[export] Instance json_V1 : JSON V1.Items := {|
  json_Marshal v :=
    inl (enc_doc false
           (fun i => (O, V1.Name i, V1.Category i, V1.ImageFileName i))
           (V1.Items_ v));
  json_Unmarshal data v :=
    match dec_doc false (fun _ => V1.Build_Item) data with
    | Some l => ({| V1.Items_ := l |}, None)
    | None => (v, Some (Errorf "invalid character"))
    end
|}.

#[export] Instance json_V2 : JSON V2.Items := {|
  json_Marshal v :=
    inl (enc_doc true
           (fun i => (Z.to_nat (V2.ID i), V2.Name i, V2.Category i,
                      V2.ImageFileName i))
           (V2.Items_ v));
  json_Unmarshal data v :=
    match dec_doc true (fun id => V2.Build_Item (Z.of_nat id)) data with
    | Some l => ({| V2.Items_ := l |}, None)
    | None => (v, Some (Errorf "invalid character"))
    end
|}.

(** A request, for running the handlers. *)
Definition request (name category : string) (image : FileHeader + error)
    (param keyword : string) : Context :=
  {| FormValue k :=
       if String.eqb k "name" then name
       else if String.eqb k "category" then category else "";
     FormFile k := if String.eqb k "image" then image else inr ErrMissingFile;
     Param _ := param;
     QueryParam k := if String.eqb k "keyword" then keyword else "" |}.

Definition upload (filename data : string) : FileHeader :=
  {| Filename := filename; Open := inl {| r_data := data; r_fails := false |} |}.

(** Canonical decimal texts as integers, for [text_as_integer]. *)
Definition decimal (s : string) : option Z :=
  match dec_nat s with
  | Some (n, EmptyString) => Some (Z.of_nat n)
  | _ => None
  end.

End PlainJSON.

(** ** Predicates of the statements *)

(** A text without a slash: one element of a path. *)
Definition no_slash (s : string) : bool :=
  forallb (fun c => negb (Ascii.eqb c "/")) (GoStd.bytes_of s).

(** A text that ends in the bytes ".jpg", read from its reversed bytes. *)
Definition ends_jpg (rev_bytes : list ascii) : bool :=
  match rev_bytes with
  | g :: p :: j :: dot :: _ =>
      Ascii.eqb g "g" && Ascii.eqb p "p" && Ascii.eqb j "j" && Ascii.eqb dot "."
  | _ => false
  end.

(** The name add gives an image: hex(SHA-256(original name)) + ".jpg". *)
Definition hashed_name (filename : string) : string :=
  GoStd.hex (SHA256.Sum256 filename) +:+ ".jpg".

(** The items a list response carries. *)
Definition listed {I : Type} (o : outcome I) : option (list I) :=
  match o with
  | Respond 200 (ItemsOf l) => Some l
  | _ => None
  end.

(** The row of table [items] that holds an item. *)
Definition row_of (i : V2.Item) : row :=
  (V2.ID i, Some (V2.Name i), Some (V2.Category i), Some (V2.ImageFileName i)).

(** A table whose rows hold no NULL: the rows of some items. *)
Definition rows_of_items (d : database) : Prop :=
  match items_table d with
  | None => True
  | Some rows => exists its, rows = List.map row_of its
  end.

(** A database that can be reached and holds the rows [rows]. *)
Definition serving (d : database) (rows : list row) : Prop :=
  driver_ok d = true /\ db_file_ok d = true /\ items_table d = Some rows.

(** The items a document decodes to, in each program. *)
Definition decode0 {json : JSON V0.Items} (data : string) : list V0.Item :=
  V0.Items_ (json_Unmarshal data {| V0.Items_ := [] |}).1.
Definition decode1 {json : JSON V1.Items} (data : string) : list V1.Item :=
  V1.Items_ (json_Unmarshal data {| V1.Items_ := [] |}).1.
Definition decode2 {json : JSON V2.Items} (data : string) : list V2.Item :=
  V2.Items_ (json_Unmarshal data {| V2.Items_ := [] |}).1.

(** The world once addItem has logged what it received. *)
Definition received (c : Context) (image : FileHeader) (w : world) : world :=
  Logf "INFO" ("Receive image: " +:+ Filename image)
    (Logf "INFO" ("Receive category: " +:+ FormValue c "category")
       (Logf "INFO" ("Receive item: " +:+ FormValue c "name") w)).

(** A path at which a file can be created or rewritten. *)
Definition can_store (p : string) (fs : gmap string node) : Prop :=
  match fs !! p with
  | Some (Reg r w _) => r = true /\ w = true
  | Some Dir => False
  | None => fs !! parent p = Some Dir
  end.

(** Saving the image fails: the upload does not open, its file cannot be
    created, or the copy ends in an error. *)
Definition save_fails (image : FileHeader) (w : world) : Prop :=
  match Open image with
  | inr _ => True
  | inl src =>
      match os_Create ("../images/" +:+ hashed_name (Filename image)) (fs w) with
      | inr _ => True
      | inl _ => r_fails src = true
      end
  end.

(** ** Sample worlds and requests *)

Module Sample.
Import PlainJSON.

Definition empty_doc : string := "{" +:+ key "items" +:+ "[]}".

Definition fresh_db : database :=
  {| driver_ok := true; db_file_ok := true; read_only := false;
     items_table := None; seq := 0 |}.

(** The layout of a fresh checkout: an empty catalog, the image
    directories, the default image. *)
Definition fresh : world :=
  {| fs := {[ "items.json" := Reg true true empty_doc;
              "../images" := Dir;
              "images" := Dir;
              "images/default.jpg" := Reg true true "default image" ]};
     db := fresh_db;
     out := [] |}.

(** The same without items.json. *)
Definition no_catalog : world :=
  {| fs := {[ "../images" := Dir;
              "images" := Dir;
              "images/default.jpg" := Reg true true "default image" ]};
     db := fresh_db;
     out := [] |}.

(** items.json is a directory: it opens, and cannot be read. *)
Definition catalog_is_dir : world :=
  {| fs := {[ "items.json" := Dir ]}; db := fresh_db; out := [] |}.

(** A database that refuses writes, with an empty table. *)
Definition read_only_db : world :=
  {| fs := fs fresh;
     db := {| driver_ok := true; db_file_ok := true; read_only := true;
              items_table := Some []; seq := 0 |};
     out := [] |}.

Definition shoes : Context :=
  request "shoes" "fashion" (inl (upload "shoes.jpg" "shoes, first photo")) "0" "sho".

Definition shoes_again : Context :=
  request "shoes" "fashion" (inl (upload "shoes.jpg" "shoes, second photo")) "0" "sho".

Definition shoes_png : Context :=
  request "shoes" "fashion" (inl (upload "shoes.png" "a png")) "0" "sho".

(** An upload that cannot be opened. *)
Definition shoes_unreadable : Context :=
  request "shoes" "fashion"
    (inl {| Filename := "shoes.jpg"; Open := inr ErrReader |}) "0" "sho".

Definition fetch (name : string) : Context :=
  request "" "" (inr ErrMissingFile) name "".

Definition get (id : string) : Context :=
  request "" "" (inr ErrMissingFile) id "".

Definition search (keyword : string) : Context :=
  request "" "" (inr ErrMissingFile) "" keyword.

End Sample.

(** ** Further predicates and samples *)

(** The item add appends, in each program. *)
Definition new_item0 (c : Context) (image : FileHeader) : V0.Item :=
  {| V0.Name := FormValue c "name"; V0.Category := FormValue c "category";
     V0.ImageFileName := hashed_name (Filename image) |}.

Definition new_item1 (c : Context) (image : FileHeader) : V1.Item :=
  {| V1.Name := FormValue c "name"; V1.Category := FormValue c "category";
     V1.ImageFileName := hashed_name (Filename image) |}.

Definition new_item2 (id : Z) (c : Context) (image : FileHeader) : V2.Item :=
  {| V2.ID := id; V2.Name := FormValue c "name";
     V2.Category := FormValue c "category";
     V2.ImageFileName := hashed_name (Filename image) |}.

(** The rows of the table, none before it is created. *)
Definition rows_now (d : database) : list row := default [] (items_table d).

(** The id AUTOINCREMENT gives the next row. *)
Definition next_id (d : database) : Z :=
  (Z.max (seq d) (SQLite.max_id (rows_now d)) + 1)%Z.

Definition has_table (d : database) : bool :=
  match items_table d with Some _ => true | None => false end.

(** The database with one row more. *)
Definition inserted (d : database) (name category image : string) : database :=
  {| driver_ok := driver_ok d; db_file_ok := db_file_ok d;
     read_only := read_only d;
     items_table :=
       Some (rows_now d ++ [(next_id d, Some name, Some category, Some image)]);
     seq := next_id d |}.

(** The database can be reached and accepts writes. *)
Definition writable (d : database) : Prop :=
  driver_ok d = true /\ db_file_ok d = true /\ read_only d = false.

(** No two rows share an id. *)
Definition unique_ids (d : database) : Prop :=
  NoDup (List.map row_id (rows_now d)).

(** A digit of lower-case hexadecimal. *)
Definition lower_hex (c : ascii) : bool :=
  ((48 <=? N_of_ascii c)%N && (N_of_ascii c <=? 57)%N) ||
  ((97 <=? N_of_ascii c)%N && (N_of_ascii c <=? 102)%N).


Module Sample2.
Import PlainJSON.

(** items.json holds something that is no JSON document. *)
Definition corrupt : world :=
  {| fs := {[ "items.json" := Reg true true "<html>not a catalog</html>";
              "../images" := Dir;
              "images" := Dir;
              "images/default.jpg" := Reg true true "default image" ]};
     db := Sample.fresh_db;
     out := [] |}.

(** A file beside the image directory. *)
Definition with_secret : world :=
  {| fs := {[ "secret.jpg" := Reg true true "not an image of the catalog";
              "images" := Dir;
              "images/default.jpg" := Reg true true "default image" ]};
     db := Sample.fresh_db;
     out := [] |}.

(** An upload whose copy breaks off after three bytes. *)
Definition broken_upload : FileHeader :=
  {| Filename := "shoes.jpg";
     Open := inl {| r_data := "sho"; r_fails := true |} |}.

Definition shoes_broken : Context :=
  request "shoes" "fashion" (inl broken_upload) "0" "sho".

(** The documents of the flat-file programs. *)
Definition doc0 (l : list V0.Item) : string :=
  enc_doc false (fun i => (O, V0.Name i, V0.Category i, V0.ImageFileName i)) l.

Definition doc1 (l : list V1.Item) : string :=
  enc_doc false (fun i => (O, V1.Name i, V1.Category i, V1.ImageFileName i)) l.

Definition shoes_item : V1.Item :=
  {| V1.Name := "shoes"; V1.Category := "fashion";
     V1.ImageFileName := hashed_name "shoes.jpg" |}.

Definition hat_item : V1.Item :=
  {| V1.Name := "hat"; V1.Category := "fashion";
     V1.ImageFileName := hashed_name "hat.jpg" |}.

Definition hat : Context :=
  request "hat" "fashion" (inl (upload "hat.jpg" "a hat")) "0" "hat".

(** items.json is there and may not be read. *)
Definition catalog_locked : world :=
  {| fs := {[ "items.json" := Reg false true Sample.empty_doc;
              "../images" := Dir;
              "images" := Dir;
              "images/default.jpg" := Reg true true "default image" ]};
     db := Sample.fresh_db;
     out := [] |}.

(** A keyword of 49999 percent signs. *)
Definition percents : string :=
  string_of_list_ascii (repeat "%"%char (Z.to_nat 49999)).

(** An item named by them. *)
Definition long_name : Context :=
  request percents "fashion" (inl (upload "wool.jpg" "wool")) "0" percents.

(** The string that is one zero byte, and the UTF-8 forms of U+FFFD and of
    U+FFFF. *)
Definition nul : string := String (ascii_of_N 0) "".
Definition uFFFD : string :=
  String (ascii_of_N 239) (String (ascii_of_N 191) (String (ascii_of_N 189) "")).
Definition uFFFF : string :=
  String (ascii_of_N 239) (String (ascii_of_N 191) (String (ascii_of_N 191) "")).

(** A name that holds both wildcards of LIKE. *)
Definition odd_name : Context :=
  request "100%_wool" "fashion" (inl (upload "wool.jpg" "wool")) "0" "100%_wool".

End Sample2.

(** * Properties *)

(** ** SHA-256 on the test vectors of FIPS 180-4 *)

Example sha256_abc :
  GoStd.hex (SHA256.Sum256 "abc")
  = "ba7816bf8f01cfea414140de5dae2223b00361a396177a9cb410ff61f20015ad".
Proof. vm_compute. reflexivity. Qed.

Example sha256_empty :
  GoStd.hex (SHA256.Sum256 "")
  = "e3b0c44298fc1c149afbf4c8996fb92427ae41e4649b934ca495991b7852b855".
Proof. vm_compute. reflexivity. Qed.

Example sha256_two_blocks :
  GoStd.hex (SHA256.Sum256 "abcdbcdecdefdefgefghfghighijhijkijkljklmklmnlmnomnopnopq")
  = "248d6a61d20638b8e5c026930c3e6039a33ce45964ff2167f6ecedd419db06c1".
Proof. vm_compute. reflexivity. Qed.

(** A name of 55 bytes fills its block to the last byte before the length;
    one of 56 bytes needs a second block. *)
Example sha256_block_boundary :
  GoStd.hex (SHA256.Sum256 "aaaaaaaaaaaaaaaaaaaaaaaaaaaaaaaaaaaaaaaaaaaaaaaaaaaaaaa")
  = "9f4390f8d30c2dd92ec9f095b65e2b9ae9b0a925a5258e241c9f1e910f734318" /\
  GoStd.hex (SHA256.Sum256 "aaaaaaaaaaaaaaaaaaaaaaaaaaaaaaaaaaaaaaaaaaaaaaaaaaaaaaaa")
  = "b35439a4ac6f0948b6d6f9e3c6af0f5f590ce20f1bde7090ef7970686ec6738a".
Proof. vm_compute. split; reflexivity. Qed.

(** ** Strings and paths *)

Section StringFacts.

Lemma app_String (c : ascii) (a b : string) :
  String c a +:+ b = String c (a +:+ b).
Proof. reflexivity. Qed.

Lemma app_assoc_string (a b c : string) : (a +:+ b) +:+ c = a +:+ (b +:+ c).
Proof. induction a as [|x a IH]; [done | by rewrite !app_String, IH]. Qed.

Lemma bytes_of_app (a b : string) :
  GoStd.bytes_of (a +:+ b) = GoStd.bytes_of a ++ GoStd.bytes_of b.
Proof. induction a as [|c a IH]; simpl; [done | by rewrite IH]. Qed.

Lemma bytes_of_inj (a b : string) : GoStd.bytes_of a = GoStd.bytes_of b -> a = b.
Proof.
  intros E. rewrite <- (string_of_list_ascii_of_string a).
  rewrite <- (string_of_list_ascii_of_string b). unfold GoStd.bytes_of in E.
  by rewrite E.
Qed.

Lemma length_app_string (a b : string) :
  String.length (a +:+ b) = String.length a + String.length b.
Proof. induction a as [|c a IH]; simpl; [done | by rewrite IH]. Qed.

Lemma substring_all (s : string) : substring 0 (String.length s) s = s.
Proof. induction s as [|c s IH]; simpl; [done | by rewrite IH]. Qed.

Lemma substring_skip (p s : string) (n : nat) :
  substring (String.length p) n (p +:+ s) = substring 0 n s.
Proof. induction p as [|c p IH]; simpl; [done | apply IH]. Qed.

Lemma substring_split (s : string) (n : nat) :
  n <= String.length s ->
  s = substring 0 n s +:+ substring n (String.length s - n) s.
Proof.
  revert n. induction s as [|c s IH]; intros n Hn; simpl in *.
  - destruct n; simpl; [done | lia].
  - destruct n as [|n]; simpl.
    + by rewrite substring_all.
    + rewrite app_String. f_equal. apply IH. lia.
Qed.

(** [strings.HasSuffix] holds of the texts that are a text followed by the
    suffix. *)
Lemma HasSuffix_spec (s suffix : string) :
  GoStd.HasSuffix s suffix = true <-> exists p, s = p +:+ suffix.
Proof.
  unfold GoStd.HasSuffix. rewrite andb_true_iff, Nat.leb_le, String.eqb_eq. split.
  - intros [Hlen Hsub].
    exists (substring 0 (String.length s - String.length suffix) s).
    pose proof (substring_split s (String.length s - String.length suffix)) as E.
    replace (String.length s - (String.length s - String.length suffix))
      with (String.length suffix) in E by lia.
    rewrite Hsub in E. apply E. lia.
  - intros [p ->]. rewrite length_app_string. split; [lia |].
    replace (String.length p + String.length suffix - String.length suffix)
      with (String.length p) by lia.
    rewrite substring_skip. apply substring_all.
Qed.

Lemma HasSuffix_jpg (s : string) :
  GoStd.HasSuffix s ".jpg" = ends_jpg (rev (GoStd.bytes_of s)).
Proof.
  apply eq_true_iff_eq. rewrite HasSuffix_spec. split.
  - intros [p ->]. rewrite bytes_of_app, rev_app_distr. reflexivity.
  - intros H. unfold ends_jpg in H.
    destruct (rev (GoStd.bytes_of s)) as [|c1 [|c2 [|c3 [|c4 r]]]] eqn:E;
      try discriminate.
    rewrite !andb_true_iff, !Ascii.eqb_eq in H.
    destruct H as [[[-> ->] ->] ->].
    exists (string_of_list_ascii (rev r)). apply bytes_of_inj.
    rewrite bytes_of_app. unfold GoStd.bytes_of at 2.
    rewrite list_ascii_of_string_of_list_ascii.
    apply (f_equal (@rev ascii)) in E. rewrite rev_involutive in E.
    rewrite E. simpl. by rewrite <- !app_assoc.
Qed.

(** What [ext_scan] returns is empty or ends in what it was given. *)
Lemma ext_scan_shape (r : list ascii) (acc : string) :
  GoStd.ext_scan r acc = "" \/
  exists pre, GoStd.ext_scan r acc = String "." (pre +:+ acc).
Proof.
  revert acc. induction r as [|c r IH]; intros acc; simpl; [by left |].
  destruct (Ascii.eqb_spec c "/"); [by left |].
  destruct (Ascii.eqb_spec c ".") as [-> |].
  - right. by exists "".
  - destruct (IH (String c acc)) as [-> | [pre ->]]; [by left |].
    right. exists (pre +:+ String c ""). by rewrite app_assoc_string.
Qed.

(** [path.Ext] is ".jpg" exactly on the names that end in ".jpg". *)
Lemma Ext_jpg (s : string) :
  String.eqb (GoStd.Ext s) ".jpg" = GoStd.HasSuffix s ".jpg".
Proof.
  assert (long : forall r acc, 4 <= String.length acc ->
            String.eqb (GoStd.ext_scan r acc) ".jpg" = false).
  { intros r acc Hacc. apply String.eqb_neq. intros E.
    destruct (ext_scan_shape r acc) as [E' | [pre E']]; rewrite E' in E;
      [discriminate |].
    apply (f_equal String.length) in E. simpl in E.
    rewrite length_app_string in E. lia. }
  rewrite HasSuffix_jpg. unfold GoStd.Ext, ends_jpg.
  destruct (rev (GoStd.bytes_of s)) as [|c1 [|c2 [|c3 [|c4 r]]]]; simpl;
    repeat match goal with
      | |- context [Ascii.eqb ?c "/"] =>
          destruct (Ascii.eqb_spec c "/") as [-> | ?]; simpl
      | |- context [Ascii.eqb ?c "."] =>
          destruct (Ascii.eqb_spec c ".") as [-> | ?]; simpl
      end;
    repeat match goal with
      | |- context [Ascii.eqb ?c ?d] => destruct (Ascii.eqb c d); simpl
      end;
    try reflexivity; try (apply long; simpl; lia).
Qed.

End StringFacts.

Section PathFacts.

Lemma split_slash_no_slash (s : string) :
  no_slash s = true -> GoStd.split_slash s = [s].
Proof.
  unfold no_slash. induction s as [|c s IH]; simpl; [done |].
  rewrite andb_true_iff, negb_true_iff. intros [-> Hs]. by rewrite IH.
Qed.

Lemma split_slash_app (a b : string) :
  no_slash a = true ->
  GoStd.split_slash (a +:+ String "/" b) = a :: GoStd.split_slash b.
Proof.
  unfold no_slash. induction a as [|c a IH]; simpl; [done |].
  rewrite andb_true_iff, negb_true_iff. intros [Hc Ha].
  rewrite ?app_String. simpl. rewrite Hc. by rewrite IH.
Qed.

(** A name that ends in ".jpg" is none of the special path elements. *)
Lemma jpg_element (x : string) :
  GoStd.HasSuffix x ".jpg" = true ->
  String.eqb x "" = false /\ String.eqb x "." = false /\ String.eqb x ".." = false.
Proof.
  intros H. apply HasSuffix_spec in H as [p ->].
  repeat split; apply String.eqb_neq; intros E;
    apply (f_equal String.length) in E; rewrite length_app_string in E;
    simpl in E; lia.
Qed.

Lemma Join_images (x : string) :
  no_slash x = true ->
  String.eqb x "" = false -> String.eqb x "." = false -> String.eqb x ".." = false ->
  GoStd.Join "images" x = "images/" +:+ x.
Proof.
  intros Hs H0 H1 H2. unfold GoStd.Join. rewrite H0. simpl String.eqb.
  cbv iota. unfold GoStd.Clean.
  change ("images" +:+ "/" +:+ x) with ("images" +:+ String "/" x).
  rewrite split_slash_app by reflexivity.
  rewrite (split_slash_no_slash x Hs).
  simpl. rewrite H0, H1, H2. simpl. reflexivity.
Qed.

Lemma Join_images_relative (x : string) :
  no_slash x = true ->
  String.eqb x "" = false -> String.eqb x "." = false -> String.eqb x ".." = false ->
  GoStd.Join "../images" x = "../images/" +:+ x.
Proof.
  intros Hs H0 H1 H2. unfold GoStd.Join. rewrite H0. simpl String.eqb.
  cbv iota. unfold GoStd.Clean.
  change ("../images" +:+ "/" +:+ x) with (".." +:+ String "/" ("images" +:+ String "/" x)).
  rewrite split_slash_app by reflexivity.
  rewrite split_slash_app by reflexivity.
  rewrite (split_slash_no_slash x Hs).
  simpl. rewrite H0, H1, H2. simpl. reflexivity.
Qed.

Lemma ends_jpg_under_images (l : list ascii) :
  ends_jpg (l ++ rev (GoStd.bytes_of "images/")) = ends_jpg l.
Proof.
  destruct l as [|c1 [|c2 [|c3 [|c4 r]]]]; simpl; try reflexivity.
  - by rewrite andb_false_r.
  - by rewrite andb_false_r.
  - by rewrite andb_false_r.
Qed.

(** The check of [getImg] on the joined path is the check on the name,
    for a name that is one path element. *)
Lemma HasSuffix_Join_images (x : string) :
  no_slash x = true ->
  GoStd.HasSuffix (GoStd.Join "images" x) ".jpg" = GoStd.HasSuffix x ".jpg".
Proof.
  intros Hs.
  destruct (String.eqb x "") eqn:H0; [apply String.eqb_eq in H0 as ->; done |].
  destruct (String.eqb x ".") eqn:H1; [apply String.eqb_eq in H1 as ->; done |].
  destruct (String.eqb x "..") eqn:H2; [apply String.eqb_eq in H2 as ->; done |].
  rewrite Join_images by done. rewrite !HasSuffix_jpg.
  rewrite bytes_of_app, rev_app_distr. apply ends_jpg_under_images.
Qed.

Lemma hex_digit_no_slash (y : Z) :
  Ascii.eqb (GoStd.hex_digit (Z.land y 15)) "/" = false.
Proof.
  assert (0 <= Z.land y 15 < 16)%Z as Hb.
  { change 15%Z with (Z.ones 4). rewrite Z.land_ones by lia.
    apply Z.mod_pos_bound. lia. }
  remember (Z.land y 15) as v eqn:E. clear E.
  assert (v = 0 \/ v = 1 \/ v = 2 \/ v = 3 \/ v = 4 \/ v = 5 \/ v = 6 \/ v = 7 \/
          v = 8 \/ v = 9 \/ v = 10 \/ v = 11 \/ v = 12 \/ v = 13 \/ v = 14 \/
          v = 15)%Z as Hv by lia.
  repeat destruct Hv as [-> | Hv]; try subst v; reflexivity.
Qed.

Lemma hex_no_slash (b : list Z) : no_slash (GoStd.hex b) = true.
Proof.
  unfold no_slash. induction b as [|x b IH]; simpl; [done |].
  by rewrite !hex_digit_no_slash, IH.
Qed.

Lemma no_slash_app (a b : string) :
  no_slash (a +:+ b) = no_slash a && no_slash b.
Proof. unfold no_slash. by rewrite bytes_of_app, forallb_app. Qed.

Lemma hashed_name_jpg (f : string) : GoStd.HasSuffix (hashed_name f) ".jpg" = true.
Proof. apply HasSuffix_spec. by eexists. Qed.

Lemma hashed_name_no_slash (f : string) : no_slash (hashed_name f) = true.
Proof. unfold hashed_name. by rewrite no_slash_app, hex_no_slash. Qed.

(** Where [saveImageToLocal] writes. *)
Lemma save_path (f : string) :
  GoStd.Join Shared.ImgDirRelative (hashed_name f) = "../images/" +:+ hashed_name f.
Proof.
  destruct (jpg_element _ (hashed_name_jpg f)) as (H0 & H1 & H2).
  apply Join_images_relative; auto using hashed_name_no_slash.
Qed.

Lemma save_path_not_items (f : string) :
  "../images/" +:+ hashed_name f <> "items.json".
Proof. discriminate. Qed.

End PathFacts.

Section IndexFacts.

Lemma Itoa_inj (a b : nat) : GoStd.Itoa a = GoStd.Itoa b -> a = b.
Proof.
  unfold GoStd.Itoa. intros E.
  apply (f_equal NilEmpty.uint_of_string) in E. rewrite !NilEmpty.usu in E.
  injection E as E. apply (f_equal Nat.of_uint) in E.
  by rewrite !DecimalNat.Unsigned.of_to in E.
Qed.

(** The loop of [getItemsByID] finds the item at the position the id
    spells. *)
Lemma range_find_Itoa (l : list V1.Item) (i n : nat) :
  i <= n -> V1.range_find (GoStd.Itoa n) i l = l !! (n - i).
Proof.
  revert i. induction l as [|item l IH]; intros i Hi; simpl; [done |].
  destruct (String.eqb_spec (GoStd.Itoa i) (GoStd.Itoa n)) as [E | NE].
  - apply Itoa_inj in E as ->. by rewrite Nat.sub_diag.
  - assert (i <> n) by (intros ->; done).
    rewrite IH by lia. replace (n - i) with (S (n - S i)) by lia. done.
Qed.

Lemma range_find_none (l : list V1.Item) (id : string) (i : nat) :
  (forall k, i <= k < i + length l -> id <> GoStd.Itoa k) ->
  V1.range_find id i l = None.
Proof.
  revert i. induction l as [|item l IH]; intros i H; simpl; [done |].
  destruct (String.eqb_spec (GoStd.Itoa i) id) as [E | NE].
  - exfalso. apply (H i); [simpl; lia | done].
  - apply IH. intros k Hk. apply H. simpl. lia.
Qed.

Lemma range_find_some (l : list V1.Item) (id : string) (i : nat) (item : V1.Item) :
  V1.range_find id i l = Some item ->
  exists k, id = GoStd.Itoa (i + k) /\ l !! k = Some item.
Proof.
  revert i. induction l as [|x l IH]; intros i; simpl; [done |].
  destruct (String.eqb_spec (GoStd.Itoa i) id) as [E | NE].
  - intros [= ->]. exists 0. by rewrite Nat.add_0_r.
  - intros H. apply IH in H as (k & -> & Hk). exists (S k).
    split; [f_equal; lia | done].
Qed.

End IndexFacts.

(** ** The image store *)

Section ImageStore.

Lemma parent_save_path (x : string) :
  no_slash x = true -> parent ("../images/" +:+ x) = "../images".
Proof.
  intros Hs. unfold parent.
  change ("../images/" +:+ x) with (".." +:+ String "/" ("images" +:+ String "/" x)).
  rewrite !split_slash_app by reflexivity.
  by rewrite (split_slash_no_slash x Hs).
Qed.

Lemma open_trunc_frame op rd name fs0 fs1 p :
  open_trunc op rd name fs0 = inl fs1 -> p <> name -> fs1 !! p = fs0 !! p.
Proof.
  unfold open_trunc. intros H Hp.
  destruct (fs0 !! name) as [[r w d|]|] eqn:E.
  - destruct (w && (r || negb rd)); [|done]. injection H as <-.
    by rewrite lookup_insert_ne.
  - done.
  - destruct (fs0 !! parent name) as [[]|]; try done. injection H as <-.
    by rewrite lookup_insert_ne.
Qed.

Lemma write_data_frame name data (fs0 : gmap string node) p :
  p <> name -> write_data name data fs0 !! p = fs0 !! p.
Proof.
  unfold write_data. intros Hp. destruct (fs0 !! name) as [[r w d|]|]; try done.
  by rewrite lookup_insert_ne.
Qed.

(** Saving an image touches no path but the image's own. *)
Lemma save_frame (image : FileHeader) (w : world) (p : string) :
  p <> "../images/" +:+ hashed_name (Filename image) ->
  fs (Shared.saveImageToLocal image w) !! p = fs w !! p.
Proof.
  intros Hp. unfold Shared.saveImageToLocal.
  destruct (Open image) as [src | err]; [|done].
  fold (hashed_name (Filename image)). rewrite save_path.
  destruct (os_Create _ (fs w)) as [fs1 | err] eqn:E; [|done].
  simpl. assert (fs1 !! p = fs w !! p) as <- by (eapply open_trunc_frame; eauto).
  destruct (r_fails src); simpl; by rewrite write_data_frame.
Qed.

Lemma save_db (image : FileHeader) (w : world) :
  db (Shared.saveImageToLocal image w) = db w.
Proof.
  unfold Shared.saveImageToLocal. destruct (Open image) as [src | err]; [|done].
  destruct (os_Create _ (fs w)) as [fs1 | err]; [|done].
  simpl. by destruct (r_fails src).
Qed.

(** When the upload can be read and its file created, the file holds the
    upload afterwards, whatever it held before. *)
Lemma save_stores (image : FileHeader) (src : reader) (w : world) fs1 :
  Open image = inl src -> r_fails src = false ->
  os_Create ("../images/" +:+ hashed_name (Filename image)) (fs w) = inl fs1 ->
  exists r wr,
    fs (Shared.saveImageToLocal image w)
      !! ("../images/" +:+ hashed_name (Filename image))
    = Some (Reg r wr (r_data src)).
Proof.
  intros Ho Hr Hc. unfold Shared.saveImageToLocal. rewrite Ho.
  fold (hashed_name (Filename image)). rewrite save_path, Hc. simpl. rewrite Hr.
  simpl. unfold os_Create, open_trunc in Hc. unfold write_data.
  destruct (fs w !! _) as [[r wr d|]|] eqn:E.
  - destruct (wr && (r || negb true)); [|done]. injection Hc as <-.
    rewrite lookup_insert_eq. exists r, wr. by rewrite lookup_insert_eq.
  - done.
  - destruct (fs w !! parent _) as [[]|]; try done. injection Hc as <-.
    rewrite lookup_insert_eq. exists true, true. by rewrite lookup_insert_eq.
Qed.

(** A save that fails prints one line and returns. *)
Lemma save_failure_logged (image : FileHeader) (w : world) :
  save_fails image w ->
  exists what, out (Shared.saveImageToLocal image w)
               = out w ++ ["Cannot " +:+ what].
Proof.
  unfold save_fails, Shared.saveImageToLocal.
  destruct (Open image) as [src | err].
  - fold (hashed_name (Filename image)). rewrite save_path.
    destruct (os_Create _ (fs w)) as [fs1 | err].
    + intros Hr. unfold io_Copy. rewrite Hr. simpl. by eexists.
    + intros _. simpl. by eexists.
  - intros _. simpl. by eexists.
Qed.

End ImageStore.

(** ** The flat-file catalog (go/app/main.go) *)

Section FlatFile.
Context {json : JSON V1.Items}.

Lemma V1_getItems_reads (c : Context) (w : world) (wr : bool) (data : string) :
  fs w !! V1.ItemFile = Some (Reg true wr data) ->
  V1.getItems c w = (Respond StatusOK (ItemsOf (decode1 data)), w).
Proof.
  intros E. unfold V1.getItems, V1.readItems, os_Open. rewrite E. reflexivity.
Qed.

(** The list depends on nothing but the node at items.json. *)
Lemma V1_getItems_ext (c c' : Context) (w w' : world) :
  fs w !! V1.ItemFile = fs w' !! V1.ItemFile ->
  (V1.getItems c w).1 = (V1.getItems c' w').1.
Proof.
  intros E. unfold V1.getItems, V1.readItems, os_Open. rewrite E.
  destruct (fs w' !! V1.ItemFile) as [[[] wr d|]|]; reflexivity.
Qed.

Lemma V1_updateJson_rejects (name category : string) (image : FileHeader) (w : world) :
  GoStd.HasSuffix (Filename image) ".jpg" = false ->
  V1.updateJson name category image w
  = (Some (Errorf "image extension is not jpg"), w).
Proof. intros H. unfold V1.updateJson. by rewrite Ext_jpg, H. Qed.

Lemma WriteFile_existing (name data : string) (fs0 : gmap string node) r old :
  fs0 !! name = Some (Reg r true old) ->
  exists fs1, ioutil_WriteFile name data fs0 = inl fs1 /\
              fs1 !! name = Some (Reg r true data) /\
              forall p, p <> name -> fs1 !! p = fs0 !! p.
Proof.
  intros E. unfold ioutil_WriteFile, open_trunc. rewrite E. simpl.
  rewrite orb_true_r. eexists. split; [reflexivity |]. unfold write_data.
  rewrite lookup_insert_eq. split; [by rewrite lookup_insert_eq |].
  intros p Hp. by rewrite !lookup_insert_ne.
Qed.

(** [updateJson] changes nothing but items.json. *)
Lemma V1_updateJson_frame (name category : string) (image : FileHeader) (w : world)
    (p : string) :
  p <> V1.ItemFile ->
  fs (V1.updateJson name category image w).2 !! p = fs w !! p.
Proof.
  intros Hp. unfold V1.updateJson.
  destruct (negb _); [done |].
  destruct (os_Open _ _); [|done]. destruct (V1.readItems w); [|done].
  destruct (json_Marshal _); [|done].
  unfold ioutil_WriteFile.
  destruct (open_trunc _ _ _ _) as [fs1 |] eqn:E; [|done]. simpl.
  rewrite write_data_frame by done. eapply open_trunc_frame; eauto.
Qed.

(** On a readable and writable items.json, [updateJson] writes the
    document of the items read and the new item. *)
Lemma V1_updateJson_writes (name category : string) (image : FileHeader) (w : world)
    (data doc : string) :
  GoStd.HasSuffix (Filename image) ".jpg" = true ->
  fs w !! V1.ItemFile = Some (Reg true true data) ->
  json_Marshal
    {| V1.Items_ := decode1 data ++
         [{| V1.Name := name; V1.Category := category;
             V1.ImageFileName := hashed_name (Filename image) |}] |} = inl doc ->
  (V1.updateJson name category image w).1 = None /\
  fs (V1.updateJson name category image w).2 !! V1.ItemFile
  = Some (Reg true true doc).
Proof.
  intros Hj Hf Hm. unfold V1.updateJson.
  pose proof (Ext_jpg (Filename image)) as Hx. rewrite Hj in Hx.
  rewrite Hx. apply String.eqb_eq in Hx. rewrite Hx. simpl negb. cbv iota.
  unfold V1.readItems, os_Open. rewrite Hf. simpl ioutil_ReadAll. cbv iota.
  unfold decode1, hashed_name in Hm. rewrite Hm.
  destruct (WriteFile_existing V1.ItemFile doc (fs w) true data Hf)
    as (fs1 & -> & Hl & _). done.
Qed.

Lemma V1_addItem_world (c : Context) (w : world) (image : FileHeader) :
  FormFile c "image" = inl image ->
  (V1.addItem c w).2
  = V1.saveImageToLocal image
      (V1.updateJson (FormValue c "name") (FormValue c "category") image
         (received c image w)).2.
Proof. intros E. unfold V1.addItem. by rewrite E. Qed.

Lemma V1_addItem_response (c : Context) (w : world) (image : FileHeader) :
  FormFile c "image" = inl image ->
  (V1.addItem c w).1
  = Respond StatusOK (Message ("item received: " +:+ FormValue c "name")).
Proof. intros E. unfold V1.addItem. by rewrite E. Qed.

Lemma V1_addItem_catalog (c : Context) (w : world) (image : FileHeader) :
  FormFile c "image" = inl image ->
  fs (V1.addItem c w).2 !! V1.ItemFile
  = fs (V1.updateJson (FormValue c "name") (FormValue c "category") image
          (received c image w)).2 !! V1.ItemFile.
Proof.
  intros E. rewrite (V1_addItem_world c w image E).
  unfold V1.saveImageToLocal. apply save_frame. discriminate.
Qed.

End FlatFile.

(** ** The relational catalog *)

Section Relational.
Context {json : JSON V2.Items}.

Lemma V2_getItems_ext (c c' : Context) (w w' : world) :
  fs w !! V2.ItemFile = fs w' !! V2.ItemFile ->
  (V2.getItems c w).1 = (V2.getItems c' w').1.
Proof.
  intros E. unfold V2.getItems, V2.readItems, os_Open. rewrite E.
  destruct (fs w' !! V2.ItemFile) as [[[] wr d|]|]; reflexivity.
Qed.

(** [addItemToDatabase] writes to the database only. *)
Lemma V2_addItemToDatabase_fs (name category : string) (image : FileHeader)
    (w : world) :
  fs (V2.addItemToDatabase name category image w).2 = fs w.
Proof.
  unfold V2.addItemToDatabase.
  destruct (negb _); [done |].
  destruct (SQLite.Open (db w)) as [h [err |]]; [done |].
  destruct (SQLite.Prepare h _ (db w)) as [[st [err |]] |]; try done.
  destruct (SQLite.Exec st _ (db w)) as [[e d] |]; [|done].
  simpl. destruct (SQLite.Prepare h _ d) as [[st' e'] |]; [|done].
  by destruct (SQLite.Exec st' _ d) as [[e'' d'] |].
Qed.

Lemma V2_addItemToDatabase_rejects (name category : string) (image : FileHeader)
    (w : world) :
  GoStd.HasSuffix (Filename image) ".jpg" = false ->
  V2.addItemToDatabase name category image w
  = (Val (Some (Errorf "image extension is not jpg")), w).
Proof. intros H. unfold V2.addItemToDatabase. by rewrite Ext_jpg, H. Qed.

Lemma V2_addItem_catalog_file (c : Context) (w : world) :
  fs (V2.addItem c w).2 !! V2.ItemFile = fs w !! V2.ItemFile.
Proof.
  unfold V2.addItem. destruct (FormFile c "image") as [image | err]; [|done].
  destruct (V2.addItemToDatabase _ _ image _) as [[[err |] |] w1] eqn:E;
    pose proof (V2_addItemToDatabase_fs (FormValue c "name")
                  (FormValue c "category") image
                  (Logf "INFO" ("Receive image: " +:+ Filename image)
                    (Logf "INFO" ("Receive category: " +:+ FormValue c "category")
                      (Logf "INFO" ("Receive item: " +:+ FormValue c "name") w)))) as F;
    rewrite E in F; simpl in F; simpl.
  - by rewrite F.
  - unfold V2.saveImageToLocal. rewrite save_frame by discriminate. by rewrite F.
  - by rewrite F.
Qed.

End Relational.

(** ** Add, then list *)

(** The lists whose image names are given names followed by one more
    end in an item of that name. *)
Lemma last_image_name (l : list V1.Item) (names : list string) (name : string) :
  List.map V1.ImageFileName l = names ++ [name] ->
  exists item, last l = Some item /\ V1.ImageFileName item = name.
Proof.
  intros E. apply map_eq_app in E as (l1 & l2 & -> & _ & E).
  destruct l2 as [|item [|x l2]]; try discriminate. injection E as E.
  exists item. split; [apply last_snoc | exact E].
Qed.

(** In go/app/main.go, when items.json is a readable and writable file
    and the document add writes decodes to items of the image names it was
    made from, add of an image whose name ends in ".jpg" followed by list
    yields a catalog with an item whose imageFileName is
    hex(SHA-256(name)) + ".jpg". *)
Lemma flat_file_add_then_list {json : JSON V1.Items} (c : Context) (w : world)
    (image : FileHeader) (data doc : string) :
  FormFile c "image" = inl image ->
  GoStd.HasSuffix (Filename image) ".jpg" = true ->
  fs w !! V1.ItemFile = Some (Reg true true data) ->
  json_Marshal
    {| V1.Items_ := decode1 data ++
         [{| V1.Name := FormValue c "name"; V1.Category := FormValue c "category";
             V1.ImageFileName := hashed_name (Filename image) |}] |} = inl doc ->
  List.map V1.ImageFileName (decode1 doc)
  = List.map V1.ImageFileName (decode1 data) ++ [hashed_name (Filename image)] ->
  exists l item,
    listed (V1.getItems c (V1.addItem c w).2).1 = Some l /\
    item ∈ l /\
    V1.ImageFileName item = hashed_name (Filename image).
Proof.
  intros Hform Hjpg Hfile Henc Hdec.
  destruct (V1_updateJson_writes (FormValue c "name") (FormValue c "category")
              image (received c image w) data doc Hjpg Hfile Henc) as [_ Hw].
  rewrite <- (V1_addItem_catalog c w image Hform) in Hw.
  rewrite (V1_getItems_reads c _ true doc Hw). simpl.
  destruct (last_image_name _ _ _ Hdec) as (item & Hlast & Hname).
  exists (decode1 doc), item. split; [reflexivity |]. split; [|exact Hname].
  apply last_Some in Hlast as [l' ->]. apply elem_of_app. right.
  apply list_elem_of_singleton. reflexivity.
Qed.

Section C1_runs.
#[local] Existing Instance PlainJSON.json_V1.
#[local] Existing Instance PlainJSON.json_V2.

Example flat_file_add_then_list_shoes :
  exists l item,
    listed (V1.getItems Sample.shoes
              (V1.addItem Sample.shoes Sample.fresh).2).1
      = Some l /\
    item ∈ l /\
    V1.ImageFileName item = hashed_name "shoes.jpg".
Proof.
  apply (flat_file_add_then_list Sample.shoes Sample.fresh
           (PlainJSON.upload "shoes.jpg" "shoes, first photo")
           Sample.empty_doc
           ("{" +:+ PlainJSON.key "items" +:+ "[{" +:+
            PlainJSON.enc_field "name" "shoes" +:+ "," +:+
            PlainJSON.enc_field "category" "fashion" +:+ "," +:+
            PlainJSON.enc_field "imageFileName" (hashed_name "shoes.jpg") +:+
            "}]}"));
    vm_compute; reflexivity.
Qed.

(** In the relational program the same property fails, and so it does in
    go/app/main.go when items.json is missing. *)
Lemma add_then_list_fails :
  ~ (forall (J : JSON V2.Items) (c : Context) (w : world) (image : FileHeader),
       FormFile c "image" = inl image ->
       GoStd.HasSuffix (Filename image) ".jpg" = true ->
       exists l item,
         listed (V2.getItems c (V2.addItem c w).2).1 = Some l /\
         item ∈ l /\
         V2.ImageFileName item = hashed_name (Filename image)) /\
  ~ (forall (J : JSON V1.Items) (c : Context) (w : world) (image : FileHeader),
       FormFile c "image" = inl image ->
       GoStd.HasSuffix (Filename image) ".jpg" = true ->
       exists l item,
         listed (V1.getItems c (V1.addItem c w).2).1 = Some l /\
         item ∈ l /\
         V1.ImageFileName item = hashed_name (Filename image)).
Proof.
  split.
  - intros H.
    destruct (H PlainJSON.json_V2 Sample.shoes Sample.fresh
                (PlainJSON.upload "shoes.jpg" "shoes, first photo")
                eq_refl eq_refl) as (l & item & Hl & Hin & _).
    vm_compute in Hl. injection Hl as <-. by apply elem_of_nil in Hin.
  - intros H.
    destruct (H PlainJSON.json_V1 Sample.shoes Sample.no_catalog
                (PlainJSON.upload "shoes.jpg" "shoes, first photo")
                eq_refl eq_refl) as (l & item & Hl & _).
    vm_compute in Hl. discriminate.
Qed.

(** C1 does not hold of the relational program: on a fresh layout add of
    shoes.jpg answers 200 and inserts the row with the hashed name, and the
    list that follows holds no item, because list reads items.json, which
    add does not write. *)
Theorem C1_relational_add_not_listed :
  (V2.addItem Sample.shoes Sample.fresh).1
    = Respond 200 (Message "item received: shoes") /\
  items_table (db (V2.addItem Sample.shoes Sample.fresh).2)
    = Some [(1%Z, Some "shoes", Some "fashion", Some (hashed_name "shoes.jpg"))] /\
  (V2.getItems Sample.shoes (V2.addItem Sample.shoes Sample.fresh).2).1
    = Respond 200 (ItemsOf []).
Proof. vm_compute. done. Qed.

End C1_runs.

(** ** Add with another extension *)

(** C2, as amended: when the image's name does not end in ".jpg", the two
    programs that check the extension leave the catalog as it was.  In
    go/app/main.go items.json keeps its node and list answers as before; in
    the relational program nothing is written at all and the answer is
    500 with the extension error. *)
Theorem C2_rejected_add_keeps_catalog {json : JSON V1.Items} (c : Context) (w : world)
    (image : FileHeader) :
  FormFile c "image" = inl image ->
  GoStd.HasSuffix (Filename image) ".jpg" = false ->
  (fs (V1.addItem c w).2 !! V1.ItemFile = fs w !! V1.ItemFile /\
   forall c', (V1.getItems c' (V1.addItem c w).2).1 = (V1.getItems c' w).1) /\
  (db (V2.addItem c w).2 = db w /\
   fs (V2.addItem c w).2 = fs w /\
   (V2.addItem c w).1
   = Respond StatusInternalServerError
       (ErrBody (Errorf "image extension is not jpg"))).
Proof.
  intros Hform Hext.
  assert (fs (V1.addItem c w).2 !! V1.ItemFile = fs w !! V1.ItemFile) as Hkeep.
  { rewrite (V1_addItem_catalog c w image Hform).
    by rewrite V1_updateJson_rejects. }
  split; [split; [exact Hkeep | intros c'; by apply V1_getItems_ext] |].
  unfold V2.addItem. rewrite Hform.
  rewrite V2_addItemToDatabase_rejects by done. done.
Qed.

Section C2_runs.
#[local] Existing Instance PlainJSON.json_V0.
#[local] Existing Instance PlainJSON.json_V1.

Lemma C2_rejected_add_keeps_catalog_witness :
  (fs (V1.addItem Sample.shoes_png Sample.fresh).2
     !! V1.ItemFile
   = fs Sample.fresh !! V1.ItemFile /\
   forall c', (V1.getItems c' (V1.addItem Sample.shoes_png Sample.fresh).2).1
              = (V1.getItems c' Sample.fresh).1) /\
  (db (V2.addItem Sample.shoes_png Sample.fresh).2 = db Sample.fresh /\
   fs (V2.addItem Sample.shoes_png Sample.fresh).2 = fs Sample.fresh /\
   (V2.addItem Sample.shoes_png Sample.fresh).1
   = Respond StatusInternalServerError
       (ErrBody (Errorf "image extension is not jpg"))).
Proof.
  apply (C2_rejected_add_keeps_catalog Sample.shoes_png Sample.fresh
           (PlainJSON.upload "shoes.png" "a png")); reflexivity.
Defined.

(** C2, as stated, fails: go/app/main.go answers 200, the relational
    program 500, and the earliest program, which checks nothing, appends
    the item. *)
Lemma C2_counterexample :
  ~ (forall (J : JSON V1.Items) (c : Context) (w : world) (image : FileHeader),
       FormFile c "image" = inl image ->
       GoStd.HasSuffix (Filename image) ".jpg" = false ->
       status (V1.addItem c w).1 = StatusBadRequest /\
       forall c', (V1.getItems c' (V1.addItem c w).2).1 = (V1.getItems c' w).1) /\
  ~ (forall (c : Context) (w : world) (image : FileHeader),
       FormFile c "image" = inl image ->
       GoStd.HasSuffix (Filename image) ".jpg" = false ->
       status (V2.addItem c w).1 = StatusBadRequest) /\
  ~ (forall (J : JSON V0.Items) (c : Context) (w : world) (image : FileHeader),
       FormFile c "image" = inl image ->
       GoStd.HasSuffix (Filename image) ".jpg" = false ->
       status (V0.addItem c w).1 = StatusBadRequest /\
       forall c', (V0.getItems c' (V0.addItem c w).2).1 = (V0.getItems c' w).1).
Proof.
  split; [|split].
  - intros H.
    destruct (H PlainJSON.json_V1 Sample.shoes_png Sample.fresh
                (PlainJSON.upload "shoes.png" "a png") eq_refl eq_refl) as [Hs _].
    vm_compute in Hs. discriminate.
  - intros H.
    pose proof (H Sample.shoes_png Sample.fresh
                  (PlainJSON.upload "shoes.png" "a png") eq_refl eq_refl) as Hs.
    vm_compute in Hs. discriminate.
  - intros H.
    destruct (H PlainJSON.json_V0 Sample.shoes_png Sample.fresh
                (PlainJSON.upload "shoes.png" "a png") eq_refl eq_refl) as [_ Hl].
    specialize (Hl Sample.shoes_png). vm_compute in Hl. discriminate.
Qed.

(** go/app/main.go also saves the rejected image, under the ".jpg" name. *)
Example rejected_add_answers :
  (V1.addItem Sample.shoes_png Sample.fresh).1
    = Respond 200 (Message "item received: shoes") /\
  fs (V1.addItem Sample.shoes_png Sample.fresh).2
    !! ("../images/" +:+ hashed_name "shoes.png")
    = Some (Reg true true "a png") /\
  status (V2.addItem Sample.shoes_png Sample.fresh).1 = 500%Z /\
  listed (V0.getItems Sample.shoes_png
            (V0.addItem Sample.shoes_png Sample.fresh).2).1
    = Some [{| V0.Name := "shoes"; V0.Category := "fashion";
               V0.ImageFileName := hashed_name "shoes.png" |}].
Proof. vm_compute. done. Qed.

End C2_runs.


(** ** Storage failures during add *)

(** C3 does not hold of the code: in go/app/main.go the error [updateJson]
    returns is dropped by [addItem].  Here items.json is missing, the
    update fails on opening it, nothing is stored, and the answer is 200
    with the success message. *)
Theorem C3_storage_failure_answered_200 :
  (V1.updateJson (json := PlainJSON.json_V1) "shoes" "fashion"
     (PlainJSON.upload "shoes.jpg" "shoes, first photo")
     (received Sample.shoes (PlainJSON.upload "shoes.jpg" "shoes, first photo")
        Sample.no_catalog)).1
  = Some (PathError "open" "items.json" "no such file or directory") /\
  (V1.addItem (json := PlainJSON.json_V1) Sample.shoes Sample.no_catalog).1
  = Respond 200 (Message "item received: shoes") /\
  fs (V1.addItem (json := PlainJSON.json_V1) Sample.shoes Sample.no_catalog).2
    !! "items.json" = None.
Proof. vm_compute. done. Qed.

(** The relational program reports the errors of opening the database, and
    drops those of the statements it executes: on a database that refuses
    writes the answer is 200 and the table has no new row. *)
Example relational_write_failure_answered_200 :
  (V2.addItem Sample.shoes Sample.read_only_db).1
  = Respond 200 (Message "item received: shoes") /\
  items_table (db (V2.addItem Sample.shoes Sample.read_only_db).2) = Some [].
Proof. vm_compute. done. Qed.

(** A database file that cannot be opened is reported as a 500. *)
Lemma relational_open_failure_answered_500 (c : Context) (w : world)
    (image : FileHeader) :
  FormFile c "image" = inl image ->
  GoStd.HasSuffix (Filename image) ".jpg" = true ->
  driver_ok (db w) = false \/ db_file_ok (db w) = false ->
  status (V2.addItem c w).1 = StatusInternalServerError /\
  db (V2.addItem c w).2 = db w.
Proof.
  intros Hform Hjpg Hdb. unfold V2.addItem. rewrite Hform.
  unfold V2.addItemToDatabase. rewrite Ext_jpg, Hjpg. simpl negb. cbv iota.
  unfold SQLite.Open, sql_Open. simpl db.
  destruct (driver_ok (db w)) eqn:Ed; [|done].
  destruct Hdb as [|Hf]; [done |].
  unfold SQLite.Prepare. rewrite Hf. done.
Qed.

(** ** Image-save failures *)

(** C4: once the form is parsed and the catalog written, the answer of add
    is the success message, whatever happens to the image: in
    go/app/main.go always, in the relational program whenever
    [addItemToDatabase] returned no error.  A save that fails prints one
    line and changes nothing else of the answer. *)
Theorem C4_image_failure_swallowed {json : JSON V1.Items} (c : Context) (w : world)
    (image : FileHeader) :
  FormFile c "image" = inl image ->
  (V1.addItem c w).1
  = Respond StatusOK (Message ("item received: " +:+ FormValue c "name")) /\
  ((V2.addItemToDatabase (FormValue c "name") (FormValue c "category") image
      (received c image w)).1 = Val None ->
   (V2.addItem c w).1
   = Respond StatusOK (Message ("item received: " +:+ FormValue c "name"))) /\
  (forall w', save_fails image w' ->
     exists what,
       out (Shared.saveImageToLocal image w') = out w' ++ ["Cannot " +:+ what]).
Proof.
  intros Hform. split; [by apply (V1_addItem_response c w image) |]. split.
  - intros Hdb. unfold V2.addItem. rewrite Hform. unfold received in Hdb.
    destruct (V2.addItemToDatabase _ _ image _) as [[[err |] |] w1];
      simpl in Hdb; try discriminate. reflexivity.
  - intros w'. apply save_failure_logged.
Qed.

Lemma C4_image_failure_swallowed_witness :
  (V1.addItem (json := PlainJSON.json_V1) Sample.shoes_unreadable Sample.fresh).1
  = Respond StatusOK (Message "item received: shoes") /\
  (V2.addItem Sample.shoes_unreadable Sample.fresh).1
  = Respond StatusOK (Message "item received: shoes") /\
  exists what,
    out (Shared.saveImageToLocal
           {| Filename := "shoes.jpg"; Open := inr ErrReader |} Sample.fresh)
    = out Sample.fresh ++ ["Cannot " +:+ what].
Proof.
  destruct (C4_image_failure_swallowed (json := PlainJSON.json_V1)
              Sample.shoes_unreadable Sample.fresh
              {| Filename := "shoes.jpg"; Open := inr ErrReader |} eq_refl)
    as (H1 & H2 & H3).
  split; [exact H1 |]. split; [apply H2; vm_compute; reflexivity |].
  apply H3. exact I.
Defined.

(** ** List on a missing or unreadable catalog *)

(** C8, as amended: a missing items.json is an error in every file-based
    program.  go/app/main.go answers 400 with the error of opening it, the
    earliest program returns that error from the handler, which the
    framework answers with 500.  The same holds of a file that may not be
    opened for reading; a file that opens and cannot be read gives 500 in
    both. *)
Theorem C8_list_failures {json0 : JSON V0.Items} {json1 : JSON V1.Items}
    (c : Context) (w : world) :
  (fs w !! "items.json" = None ->
   (V1.getItems c w).1
   = Respond StatusBadRequest
       (ErrBody (PathError "open" "items.json" "no such file or directory")) /\
   (V0.getItems c w).1
   = Return (PathError "open" "items.json" "no such file or directory") /\
   status (V0.getItems c w).1 = StatusInternalServerError) /\
  (forall wr data, fs w !! "items.json" = Some (Reg false wr data) ->
   status (V1.getItems c w).1 = StatusBadRequest /\
   status (V0.getItems c w).1 = StatusInternalServerError) /\
  (fs w !! "items.json" = Some Dir ->
   status (V1.getItems c w).1 = StatusInternalServerError /\
   status (V0.getItems c w).1 = StatusInternalServerError).
Proof.
  unfold V1.getItems, V0.getItems, V1.readItems, V1.ItemFile, os_Open.
  split; [|split]; [intros E | intros wr data E | intros E]; rewrite E; done.
Qed.

Lemma C8_list_failures_witness :
  (V1.getItems (json := PlainJSON.json_V1) (Sample.fetch "") Sample.no_catalog).1
  = Respond StatusBadRequest
      (ErrBody (PathError "open" "items.json" "no such file or directory")) /\
  (V0.getItems (json := PlainJSON.json_V0) (Sample.fetch "") Sample.no_catalog).1
  = Return (PathError "open" "items.json" "no such file or directory") /\
  status (V0.getItems (json := PlainJSON.json_V0) (Sample.fetch "")
            Sample.no_catalog).1
  = StatusInternalServerError.
Proof.
  apply (C8_list_failures (json0 := PlainJSON.json_V0)
           (json1 := PlainJSON.json_V1) (Sample.fetch "") Sample.no_catalog).
  reflexivity.
Defined.

(** C8, as stated, fails: in go/app/main.go list on a missing items.json
    is no empty list, it is a 400. *)
Lemma C8_counterexample :
  ~ (forall (J : JSON V1.Items) (c : Context) (w : world),
       fs w !! V1.ItemFile = None ->
       listed (V1.getItems c w).1 = Some []).
Proof.
  intros H.
  pose proof (H PlainJSON.json_V1 (Sample.fetch "") Sample.no_catalog eq_refl) as E.
  vm_compute in E. discriminate.
Qed.

(** ** The relational list does not see add *)

(** C10: in the relational program, list answers the same before and
    after any sequence of adds: add writes the database and the image
    directory, list reads items.json. *)
Theorem C10_list_unaffected_by_add {json : JSON V2.Items} (adds : list Context)
    (c : Context) (w : world) :
  (V2.getItems c (fold_left (fun w a => (V2.addItem a w).2) adds w)).1
  = (V2.getItems c w).1.
Proof.
  revert w. induction adds as [|a adds IH]; intros w; simpl; [done |].
  rewrite IH. apply V2_getItems_ext. apply V2_addItem_catalog_file.
Qed.


(** ** The name in the catalog and the name in the image store *)

Lemma can_store_Create (p : string) (fs0 : gmap string node) :
  can_store p fs0 -> exists fs1, os_Create p fs0 = inl fs1.
Proof.
  unfold can_store, os_Create, open_trunc.
  destruct (fs0 !! p) as [[r wr d|]|].
  - intros [-> ->]. by eexists.
  - done.
  - intros ->. by eexists.
Qed.

(** C9: for an upload whose name ends in ".jpg", the imageFileName of the
    item add appends and the name of the file the image store writes are
    the same text, hex(SHA-256(original name)) + ".jpg", a function of the
    original name alone; the file holds the bytes of this upload afterwards,
    whatever an earlier upload of the same name had put there.  The catalog
    and the image directory are taken to accept the writes, and the
    document written to decode to items of the image names it was made
    from. *)
Theorem C9_names_agree {json : JSON V1.Items} (c : Context) (w : world)
    (image : FileHeader) (src : reader) (data doc : string) :
  FormFile c "image" = inl image ->
  GoStd.HasSuffix (Filename image) ".jpg" = true ->
  Open image = inl src ->
  r_fails src = false ->
  fs w !! V1.ItemFile = Some (Reg true true data) ->
  json_Marshal
    {| V1.Items_ := decode1 data ++
         [{| V1.Name := FormValue c "name"; V1.Category := FormValue c "category";
             V1.ImageFileName := hashed_name (Filename image) |}] |} = inl doc ->
  List.map V1.ImageFileName (decode1 doc)
  = List.map V1.ImageFileName (decode1 data) ++ [hashed_name (Filename image)] ->
  can_store ("../images/" +:+ hashed_name (Filename image)) (fs w) ->
  exists l item r wr,
    listed (V1.getItems c (V1.addItem c w).2).1 = Some l /\
    last l = Some item /\
    V1.ImageFileName item = hashed_name (Filename image) /\
    fs (V1.addItem c w).2 !! ("../images/" +:+ V1.ImageFileName item)
    = Some (Reg r wr (r_data src)).
Proof.
  intros Hform Hjpg Hopen Hread Hfile Henc Hdec Hstore.
  destruct (V1_updateJson_writes (FormValue c "name") (FormValue c "category")
              image (received c image w) data doc Hjpg Hfile Henc) as [_ Hw].
  rewrite <- (V1_addItem_catalog c w image Hform) in Hw.
  rewrite (V1_getItems_reads c _ true doc Hw). simpl.
  destruct (last_image_name _ _ _ Hdec) as (item & Hlast & Hname).
  set (w1 := (V1.updateJson (FormValue c "name") (FormValue c "category") image
                (received c image w)).2).
  assert (can_store ("../images/" +:+ hashed_name (Filename image)) (fs w1)) as Hs1.
  { unfold can_store in *. unfold w1.
    rewrite V1_updateJson_frame by discriminate.
    rewrite parent_save_path in * by apply hashed_name_no_slash.
    by rewrite V1_updateJson_frame by discriminate. }
  apply can_store_Create in Hs1 as [fs1 Hc].
  destruct (save_stores image src w1 fs1 Hopen Hread Hc) as (r & wr & Hblob).
  exists (decode1 doc), item, r, wr.
  split; [reflexivity |]. split; [exact Hlast |]. split; [exact Hname |].
  rewrite Hname, (V1_addItem_world c w image Hform). exact Hblob.
Qed.

Section C9_runs.
#[local] Existing Instance PlainJSON.json_V1.

Lemma C9_names_agree_witness :
  exists l item r wr,
    listed (V1.getItems Sample.shoes (V1.addItem Sample.shoes Sample.fresh).2).1
      = Some l /\
    last l = Some item /\
    V1.ImageFileName item = hashed_name "shoes.jpg" /\
    fs (V1.addItem Sample.shoes Sample.fresh).2
      !! ("../images/" +:+ V1.ImageFileName item)
    = Some (Reg r wr "shoes, first photo").
Proof.
  apply (C9_names_agree Sample.shoes Sample.fresh
           (PlainJSON.upload "shoes.jpg" "shoes, first photo")
           {| r_data := "shoes, first photo"; r_fails := false |}
           Sample.empty_doc
           ("{" +:+ PlainJSON.key "items" +:+ "[{" +:+
            PlainJSON.enc_field "name" "shoes" +:+ "," +:+
            PlainJSON.enc_field "category" "fashion" +:+ "," +:+
            PlainJSON.enc_field "imageFileName" (hashed_name "shoes.jpg") +:+
            "}]}"));
    vm_compute; reflexivity.
Defined.

(** Two uploads named shoes.jpg: two items with one imageFileName, one
    file, holding the second photo. *)
Example second_upload_overwrites :
  let w2 := (V1.addItem Sample.shoes_again (V1.addItem Sample.shoes Sample.fresh).2).2 in
  List.map V1.ImageFileName (default [] (listed (V1.getItems Sample.shoes w2).1))
    = [hashed_name "shoes.jpg"; hashed_name "shoes.jpg"] /\
  fs w2 !! ("../images/" +:+ hashed_name "shoes.jpg")
    = Some (Reg true true "shoes, second photo") /\
  hashed_name "shoes.jpg"
    = "ab8c0473395ba00807e93ce474c7fa875f27b8a63020c446f787dbe9ef0db3e2.jpg".
Proof. vm_compute. done. Qed.

End C9_runs.


(** ** Get by id *)

Lemma filter_head_find {A : Type} (f : A -> bool) (l : list A) :
  match List.filter f l with
  | [] => List.find f l = None
  | r :: _ => List.find f l = Some r
  end.
Proof.
  induction l as [|x l IH]; simpl; [done |]. by destruct (f x).
Qed.

Lemma V1_getItemsByID_reads {json : JSON V1.Items} (c : Context) (w : world)
    (wr : bool) (data : string) :
  fs w !! V1.ItemFile = Some (Reg true wr data) ->
  (V1.getItemsByID c w).1
  = match V1.range_find (Param c "itemID") 0 (decode1 data) with
    | Some item => Respond StatusOK (OneItem item)
    | None => Respond StatusNotFound Null
    end.
Proof.
  intros E. unfold V1.getItemsByID, V1.readItems, os_Open. rewrite E. simpl.
  unfold decode1. by destruct (V1.range_find _ _ _).
Qed.

(** A query by id steps through the whole table: comparing ids raises no
    error. *)
Lemma step_by_id (tai : string -> option Z) (arg : string) (rows : list row) :
  SQLite.step tai SQLite.SelectByID arg rows
  = (List.filter (SQLite.selects tai SQLite.SelectByID arg) rows, None).
Proof.
  induction rows as [|r rows IH]; [done |].
  cbn [SQLite.step]. rewrite IH. unfold SQLite.selects. simpl.
  by destruct (match tai arg with Some n => _ | None => _ end).
Qed.

Lemma V2_getItemByID_serving (tai : string -> option Z) (c : Context) (w : world)
    (rows : list row) :
  serving (db w) rows ->
  (V2.getItemByID tai c w).1
  = match List.filter (SQLite.selects tai SQLite.SelectByID (Param c "itemID")) rows with
    | [] => Respond StatusNotFound (ErrBody ErrNoRows)
    | r :: _ =>
        match V2.Scan r with
        | inl item => Respond StatusOK (OneItem item)
        | inr err => Respond StatusInternalServerError (ErrBody err)
        end
    end.
Proof.
  intros (Hd & Hf & Ht). unfold V2.getItemByID, SQLite.Open, sql_Open.
  rewrite Hd. unfold V2.QueryRow_Scan, SQLite.Query. rewrite Hf, Ht. simpl.
  rewrite step_by_id.
  destruct (List.filter _ rows) as [|r rest]; [done |].
  unfold V2.Scan. by destruct r as [[[id [name|]] [category|]] [image|]].
Qed.

(** C5, as amended.  Flat file: the id is read as the decimal spelling of
    a position; the item at that position is returned with 200, and 404 when
    the id spells no position of the list; a file that cannot be opened,
    because it is missing or because it may not be read, is answered 400,
    one that opens and cannot be read 500.  Relational: the
    row whose primary key is the integer the id stands for is returned with
    200, 404 when there is none, and 500 when the database cannot be
    reached or has no table. *)
Theorem C5_get_by_id {json : JSON V1.Items} (tai : string -> option Z)
    (c : Context) (w : world) :
  (forall wr data n,
     fs w !! V1.ItemFile = Some (Reg true wr data) ->
     Param c "itemID" = GoStd.Itoa n ->
     (V1.getItemsByID c w).1
     = match decode1 data !! n with
       | Some item => Respond StatusOK (OneItem item)
       | None => Respond StatusNotFound Null
       end) /\
  (forall wr data,
     fs w !! V1.ItemFile = Some (Reg true wr data) ->
     (forall n, n < length (decode1 data) -> Param c "itemID" <> GoStd.Itoa n) ->
     (V1.getItemsByID c w).1 = Respond StatusNotFound Null) /\
  (fs w !! V1.ItemFile = None ->
   status (V1.getItemsByID c w).1 = StatusBadRequest) /\
  (forall wr data,
     fs w !! V1.ItemFile = Some (Reg false wr data) ->
     status (V1.getItemsByID c w).1 = StatusBadRequest) /\
  (fs w !! V1.ItemFile = Some Dir ->
   status (V1.getItemsByID c w).1 = StatusInternalServerError) /\
  (forall rows n,
     serving (db w) rows ->
     tai (Param c "itemID") = Some n ->
     match List.find (fun r => (row_id r =? n)%Z) rows with
     | Some r =>
         forall item, V2.Scan r = inl item ->
           (V2.getItemByID tai c w).1 = Respond StatusOK (OneItem item) /\
           V2.ID item = n
     | None => status (V2.getItemByID tai c w).1 = StatusNotFound
     end) /\
  (forall rows,
     serving (db w) rows ->
     tai (Param c "itemID") = None ->
     status (V2.getItemByID tai c w).1 = StatusNotFound) /\
  (driver_ok (db w) = false \/ db_file_ok (db w) = false \/
   (driver_ok (db w) = true /\ items_table (db w) = None) ->
   status (V2.getItemByID tai c w).1 = StatusInternalServerError).
Proof.
  repeat split.
  - intros wr data n Hf Hid. rewrite (V1_getItemsByID_reads c w wr data Hf), Hid.
    rewrite range_find_Itoa by lia. by rewrite Nat.sub_0_r.
  - intros wr data Hf Hid. rewrite (V1_getItemsByID_reads c w wr data Hf).
    rewrite range_find_none; [done |]. intros k Hk. apply Hid. lia.
  - intros Hf. unfold V1.getItemsByID, os_Open. by rewrite Hf.
  - intros wr data Hf. unfold V1.getItemsByID, os_Open. by rewrite Hf.
  - intros Hf. unfold V1.getItemsByID, V1.readItems, os_Open. by rewrite Hf.
  - intros rows n Hs Hid. rewrite (V2_getItemByID_serving tai c w rows Hs).
    assert (SQLite.selects tai SQLite.SelectByID (Param c "itemID")
            = fun r => (row_id r =? n)%Z) as ->.
    { unfold SQLite.selects, SQLite.eval_where. by rewrite Hid. }
    pose proof (filter_head_find (fun r => (row_id r =? n)%Z) rows) as Hfind.
    destruct (List.filter _ rows) as [|r rest]; rewrite Hfind; [done |].
    intros item Hscan. rewrite Hscan. split; [done |].
    apply find_some in Hfind as [_ Hn]. apply Z.eqb_eq in Hn.
    unfold V2.Scan in Hscan.
    destruct r as [[[id [name|]] [category|]] [image|]]; try discriminate.
    injection Hscan as <-. exact Hn.
  - intros rows Hs Hid. rewrite (V2_getItemByID_serving tai c w rows Hs).
    assert (List.filter (SQLite.selects tai SQLite.SelectByID (Param c "itemID")) rows
            = []) as ->; [|done].
    unfold SQLite.selects, SQLite.eval_where. rewrite Hid. clear Hs.
    induction rows as [|r rows IH]; simpl; [done | exact IH].
  - intros Hdb. unfold V2.getItemByID, SQLite.Open, sql_Open.
    destruct (driver_ok (db w)) eqn:Ed; [|done].
    unfold V2.QueryRow_Scan, SQLite.Query.
    destruct Hdb as [|[Hf | [_ Ht]]]; [done | by rewrite Hf |].
    destruct (db_file_ok (db w)); [by rewrite Ht | done].
Qed.

Section C5_runs.
#[local] Existing Instance PlainJSON.json_V1.

Lemma C5_get_by_id_witness :
  (V1.getItemsByID (Sample.get "0") (V1.addItem Sample.shoes Sample.fresh).2).1
  = Respond StatusOK
      (OneItem {| V1.Name := "shoes"; V1.Category := "fashion";
                  V1.ImageFileName := hashed_name "shoes.jpg" |}) /\
  (V1.getItemsByID (Sample.get "1") (V1.addItem Sample.shoes Sample.fresh).2).1
  = Respond StatusNotFound Null /\
  (V2.getItemByID PlainJSON.decimal (Sample.get "1")
     (V2.addItem Sample.shoes Sample.fresh).2).1
  = Respond StatusOK
      (OneItem {| V2.ID := 1; V2.Name := "shoes"; V2.Category := "fashion";
                  V2.ImageFileName := hashed_name "shoes.jpg" |}).
Proof.
  destruct (C5_get_by_id PlainJSON.decimal (Sample.get "0")
              (V1.addItem Sample.shoes Sample.fresh).2) as (H0 & _).
  destruct (C5_get_by_id PlainJSON.decimal (Sample.get "1")
              (V1.addItem Sample.shoes Sample.fresh).2) as (H1 & _).
  destruct (C5_get_by_id PlainJSON.decimal (Sample.get "1")
              (V2.addItem Sample.shoes Sample.fresh).2) as (_ & _ & _ & _ & _ & H2 & _).
  split; [|split].
  - apply (H0 true
             ("{" +:+ PlainJSON.key "items" +:+ "[{" +:+
              PlainJSON.enc_field "name" "shoes" +:+ "," +:+
              PlainJSON.enc_field "category" "fashion" +:+ "," +:+
              PlainJSON.enc_field "imageFileName" (hashed_name "shoes.jpg") +:+
              "}]}") 0); vm_compute; reflexivity.
  - apply (H1 true
             ("{" +:+ PlainJSON.key "items" +:+ "[{" +:+
              PlainJSON.enc_field "name" "shoes" +:+ "," +:+
              PlainJSON.enc_field "category" "fashion" +:+ "," +:+
              PlainJSON.enc_field "imageFileName" (hashed_name "shoes.jpg") +:+
              "}]}") 1); vm_compute; reflexivity.
  - apply (H2 [(1%Z, Some "shoes", Some "fashion", Some (hashed_name "shoes.jpg"))]
              1%Z); [vm_compute; done | reflexivity | reflexivity].
Defined.

(** A catalog file that may not be read is not opened either. *)
Example get_by_id_unreadable_catalog :
  (V1.getItemsByID (Sample.get "0") Sample2.catalog_locked).1
  = Respond StatusBadRequest
      (ErrBody (PathError "open" "items.json" "permission denied")).
Proof. reflexivity. Qed.

(** C5, as stated, fails: in go/app/main.go a catalog file that cannot be
    opened is answered 400, the status of a bad request, not 500. *)
Lemma C5_counterexample :
  ~ (forall (J : JSON V1.Items) (c : Context) (w : world),
       fs w !! V1.ItemFile = None ->
       status (V1.getItemsByID c w).1 = StatusInternalServerError).
Proof.
  intros H.
  pose proof (H PlainJSON.json_V1 (Sample.get "0") Sample.no_catalog eq_refl) as E.
  vm_compute in E. discriminate.
Qed.

End C5_runs.


(** ** Search *)

Section Like.

Lemma patternCompare_cons (c : Z) (p s : list Z) :
  SQLite.patternCompare (c :: p) s
  = if (c =? SQLite.matchAll)%Z then
      SQLite.patternCompare p s ||
      match s with [] => false | _ :: s' => SQLite.patternCompare (c :: p) s' end
    else if (c =? SQLite.matchOne)%Z then
      match s with [] => false | _ :: s' => SQLite.patternCompare p s' end
    else
      match s with
      | [] => false
      | d :: s' => SQLite.char_eq c d && SQLite.patternCompare p s'
      end.
Proof.
  destruct s as [|d s]; simpl;
    destruct (c =? SQLite.matchAll)%Z; try reflexivity;
    destruct (c =? SQLite.matchOne)%Z; reflexivity.
Qed.


(** [%] followed by a pattern matches wherever the pattern matches. *)
Lemma patternCompare_skip (p s : list Z) :
  SQLite.patternCompare p s = true ->
  SQLite.patternCompare (SQLite.matchAll :: p) s = true.
Proof. intros H. rewrite patternCompare_cons. simpl. by rewrite H. Qed.

Lemma char_eq_refl (c : Z) : SQLite.char_eq c c = true.
Proof. unfold SQLite.char_eq. by rewrite Z.eqb_refl. Qed.

(** A text matches the pattern made of its own characters, wildcards
    among them or not, with or without a [%] behind it. *)
Lemma patternCompare_own (p tail : list Z) :
  tail = [] \/ tail = [SQLite.matchAll] ->
  SQLite.patternCompare (p ++ tail) p = true.
Proof.
  intros Htail. induction p as [|c p IH].
  - by destruct Htail as [-> | ->].
  - change ((c :: p) ++ tail) with (c :: (p ++ tail)).
    rewrite patternCompare_cons. destruct (c =? SQLite.matchAll)%Z eqn:Hall.
    + rewrite patternCompare_cons, Hall, IH. by rewrite orb_true_r.
    + destruct (c =? SQLite.matchOne)%Z; [exact IH |].
      by rewrite char_eq_refl, IH.
Qed.



Lemma absorb_snoc (gs : list (list ascii)) :
  SQLite.absorb (gs ++ [["%"%char]])
  = ((SQLite.absorb gs).1, (SQLite.absorb gs).2 ++ [["%"%char]]).
Proof.
  induction gs as [|g gs IH]; [reflexivity |].
  destruct g as [|x [|y g]]; try reflexivity. simpl.
  destruct (SQLite.is_cont x); [|reflexivity].
  rewrite IH. by destruct (SQLite.absorb gs).
Qed.

Lemma chars_of_snoc (b : list ascii) :
  SQLite.chars_of (b ++ ["%"%char]) = SQLite.chars_of b ++ [["%"%char]].
Proof.
  induction b as [|c b IH]; [reflexivity |]. simpl. rewrite IH.
  destruct (SQLite.is_lead c); [|reflexivity].
  rewrite absorb_snoc. by destruct (SQLite.absorb (SQLite.chars_of b)).
Qed.

(** A C string followed by more bytes: they are read when it holds no zero
    byte. *)
Lemma c_string_snoc (b : list ascii) (c : ascii) :
  SQLite.c_string (b ++ [c]) = SQLite.c_string b \/
  SQLite.c_string (b ++ [c]) = SQLite.c_string b ++ [c].
Proof.
  induction b as [|x b IH]; simpl.
  - destruct (N_of_ascii c =? 0)%N; auto.
  - destruct (N_of_ascii x =? 0)%N; [auto |].
    destruct IH as [-> | ->]; auto.
Qed.

(** The characters of the pattern of a search: [%], those of the keyword,
    and the closing [%] unless a zero byte of the keyword ended the
    pattern before it. *)
Lemma chars_pattern (keyword : string) :
  exists tail,
    (tail = [] \/ tail = [SQLite.matchAll]) /\
    SQLite.chars ("%" +:+ keyword +:+ "%")
    = SQLite.matchAll :: SQLite.chars keyword ++ tail.
Proof.
  unfold SQLite.chars. rewrite bytes_of_app, bytes_of_app.
  change (GoStd.bytes_of "%") with ["%"%char].
  change (["%"%char] ++ GoStd.bytes_of keyword ++ ["%"%char])
    with ("%"%char :: (GoStd.bytes_of keyword ++ ["%"%char])).
  change (SQLite.c_string ("%"%char :: ?x)) with ("%"%char :: SQLite.c_string x).
  change (SQLite.chars_of ("%"%char :: ?x)) with (["%"%char] :: SQLite.chars_of x).
  change (List.map SQLite.Utf8Read (["%"%char] :: ?x))
    with (SQLite.matchAll :: List.map SQLite.Utf8Read x).
  destruct (c_string_snoc (GoStd.bytes_of keyword) "%"%char) as [-> | ->].
  - exists []. split; [by left |]. by rewrite app_nil_r.
  - exists [SQLite.matchAll]. split; [by right |].
    by rewrite chars_of_snoc, List.map_app.
Qed.

(** A name is LIKE the pattern of the search for it. *)
Lemma like_own_name (name : string) :
  SQLite.like ("%" +:+ name +:+ "%") name = true.
Proof.
  unfold SQLite.like. destruct (chars_pattern name) as (tail & Htail & ->).
  by apply patternCompare_skip, patternCompare_own.
Qed.




End Like.

(** The pattern of a search is two bytes longer than the keyword. *)
Lemma pattern_length (keyword : string) :
  Z.of_nat (String.length ("%" +:+ keyword +:+ "%"))
  = (Z.of_nat (String.length keyword) + 2)%Z.
Proof. rewrite !length_app_string. simpl. lia. Qed.

(** Within the limit on the pattern, the statement steps through the whole
    table and gives the rows whose name is LIKE the pattern. *)
Lemma step_like (tai : string -> option Z) (pattern : string) (rows : list row) :
  (Z.of_nat (String.length pattern) <= SQLite.LIKE_PATTERN_LENGTH)%Z ->
  SQLite.step tai SQLite.SelectNameLike pattern rows
  = (List.filter
       (fun r => match row_name r with
                 | Some name => SQLite.like pattern name
                 | None => false
                 end) rows, None).
Proof.
  intros Hlen. induction rows as [|r rows IH]; [done |].
  cbn [SQLite.step]. rewrite IH. unfold SQLite.eval_where, SQLite.likeFunc.
  destruct (SQLite.LIKE_PATTERN_LENGTH <? _)%Z eqn:E; [lia |].
  simpl. by destruct (row_name r) as [name |].
Qed.

(** Beyond it, the first row ends the stepping with an error, and no row
    is given. *)
Lemma step_like_too_long (tai : string -> option Z) (pattern : string)
    (rows : list row) :
  (SQLite.LIKE_PATTERN_LENGTH < Z.of_nat (String.length pattern))%Z ->
  SQLite.step tai SQLite.SelectNameLike pattern rows
  = ([], match rows with
         | [] => None
         | _ :: _ => Some (SQLError "LIKE or GLOB pattern too complex")
         end).
Proof.
  intros Hlen. destruct rows as [|r rows]; [done |].
  cbn [SQLite.step]. unfold SQLite.eval_where, SQLite.likeFunc.
  destruct (SQLite.LIKE_PATTERN_LENGTH <? _)%Z eqn:E; [done | lia].
Qed.

Lemma scan_rows_row_of (l acc : list V2.Item) :
  V2.scan_rows (List.map row_of l) acc = inl (acc ++ l).
Proof.
  revert acc. induction l as [|i l IH]; intros acc; simpl.
  - by rewrite app_nil_r.
  - destruct i as [id name category image]. simpl. rewrite IH.
    by rewrite <- app_assoc.
Qed.

Lemma filter_row_of (pattern : string) (l : list V2.Item) :
  List.filter
    (fun r => match row_name r with
              | Some name => SQLite.like pattern name
              | None => false
              end) (List.map row_of l)
  = List.map row_of (List.filter (fun i => SQLite.like pattern (V2.Name i)) l).
Proof.
  induction l as [|i l IH]; simpl; [done |].
  change (row_name (row_of i)) with (Some (V2.Name i)).
  destruct (SQLite.like pattern (V2.Name i)); simpl; by rewrite IH.
Qed.


Lemma filter_none {A : Type} (f : A -> bool) (l : list A) :
  (forall x, In x l -> f x = false) -> List.filter f l = [].
Proof.
  induction l as [|x l IH]; simpl; [done |]. intros H.
  rewrite (H x) by auto. apply IH. auto.
Qed.

(** The answer of search on a database that can be reached and holds the
    items [its]: the items whose name is LIKE the pattern when the keyword
    has at most 49998 bytes, and no item when it is longer: the error of
    the engine ends the loop over the rows and is not read. *)
Lemma searchItems_answer (tai : string -> option Z) (c : Context) (w : world)
    (its : list V2.Item) :
  serving (db w) (List.map row_of its) ->
  (V2.searchItems tai c w).1
  = Respond StatusOK
      (ItemList
         (if (Z.of_nat (String.length (QueryParam c "keyword")) <=? 49998)%Z then
            List.filter
              (fun i => SQLite.like ("%" +:+ QueryParam c "keyword" +:+ "%")
                          (V2.Name i)) its
          else [])).
Proof.
  intros (Hd & Hf & Ht). unfold V2.searchItems, SQLite.Open, sql_Open. rewrite Hd.
  unfold SQLite.Query. rewrite Hf, Ht. simpl.
  pose proof (pattern_length (QueryParam c "keyword")) as Hlen.
  destruct (Z.of_nat (String.length (QueryParam c "keyword")) <=? 49998)%Z eqn:E.
  - rewrite step_like by (unfold SQLite.LIKE_PATTERN_LENGTH; lia).
    cbn [fst]. by rewrite filter_row_of, scan_rows_row_of.
  - rewrite step_like_too_long by (unfold SQLite.LIKE_PATTERN_LENGTH; lia).
    reflexivity.
Qed.

(** The table is written by add alone, which writes no NULL. *)
Lemma Exec_rows_of_items (st : option SQLite.stmt) (args : list string)
    (d d' : database) (e : option error) :
  rows_of_items d -> SQLite.Exec st args d = Val (e, d') -> rows_of_items d'.
Proof.
  unfold rows_of_items, SQLite.Exec. intros Hwf.
  destruct st as [[|]|]; [| |done].
  - destruct (items_table d) as [rows|] eqn:Et.
    + intros [= _ <-]. by rewrite Et.
    + destruct (read_only d); intros [= _ <-]; simpl; [by rewrite Et |].
      by exists [].
  - destruct args as [|name [|category [|image [|x args]]]];
      destruct (items_table d) as [rows|] eqn:Et;
      try (intros [= _ <-]; by rewrite Et).
    destruct (read_only d); intros [= _ <-]; simpl; [by rewrite Et |].
    destruct Hwf as [its ->].
    exists (its ++ [{| V2.ID := Z.max (seq d) (SQLite.max_id (List.map row_of its)) + 1;
                       V2.Name := name; V2.Category := category;
                       V2.ImageFileName := image |}]).
    by rewrite List.map_app.
Qed.

Lemma addItem_rows_of_items (c : Context) (w : world) :
  rows_of_items (db w) -> rows_of_items (db (V2.addItem c w).2).
Proof.
  intros Hwf. unfold V2.addItem.
  destruct (FormFile c "image") as [image | err]; [|done].
  set (w3 := Logf _ _ (Logf _ _ (Logf _ _ w))).
  assert (rows_of_items (db (V2.addItemToDatabase (FormValue c "name")
                               (FormValue c "category") image w3).2)) as Hdb.
  { unfold V2.addItemToDatabase. destruct (negb _); [done |].
    destruct (SQLite.Open (db w3)) as [h [err |]]; [done |].
    destruct (SQLite.Prepare h _ (db w3)) as [[st [err |]] |]; try done.
    destruct (SQLite.Exec st _ (db w3)) as [[e d] |] eqn:E1; [|done].
    apply (Exec_rows_of_items _ _ _ _ _ Hwf) in E1. simpl.
    destruct (SQLite.Prepare h _ d) as [[st' e'] |]; [|done].
    destruct (SQLite.Exec st' _ d) as [[e'' d'] |] eqn:E2; [|done].
    apply (Exec_rows_of_items _ _ _ _ _ E1) in E2. done. }
  destruct (V2.addItemToDatabase _ _ image w3) as [[[err |] |] w4]; simpl in *;
    try done.
  unfold V2.saveImageToLocal. by rewrite save_db.
Qed.





(** Before the first add there is no table, and search is an error. *)
Example search_without_table :
  (V2.searchItems PlainJSON.decimal (Sample.search "") Sample.fresh).1
  = Respond 500 (ErrBody (SQLError "no such table: items")).
Proof. reflexivity. Qed.

(** The engine on strings that are no plain text: a zero byte ends the
    pattern, so the keyword that is one zero byte matches every name; a
    name that starts with a zero byte holds no character for "_"; 0xFFFF
    in a name reads as 0xFFFD. *)
Example like_on_odd_strings :
  SQLite.like ("%" +:+ Sample2.nul +:+ "%") "shoes" = true /\
  SQLite.like ("%" +:+ "a" +:+ Sample2.nul +:+ "b" +:+ "%") "xa" = true /\
  SQLite.like ("%" +:+ "_" +:+ "%") (Sample2.nul +:+ "abc") = false /\
  SQLite.like ("%" +:+ Sample2.uFFFD +:+ "%") Sample2.uFFFF = true.
Proof. vm_compute. done. Qed.

(** ** Fetch *)

(** C7, as amended: for a requested name that is one path element, fetch
    answers 400 when the name does not end in ".jpg"; when it does, the
    bytes of images/name when that is a readable file, and the bytes of
    images/default.jpg, which the image directory holds, when nothing is at
    images/name. *)
Theorem C7_fetch {I : Type} (c : Context) (w : world) :
  no_slash (Param c "imageFilename") = true ->
  (GoStd.HasSuffix (Param c "imageFilename") ".jpg" = false ->
   (Shared.getImg (I := I) c w).1
   = Respond StatusBadRequest (Message "Image path does not end with .jpg")) /\
  (GoStd.HasSuffix (Param c "imageFilename") ".jpg" = true ->
   forall wr data,
     fs w !! ("images/" +:+ Param c "imageFilename") = Some (Reg true wr data) ->
     (Shared.getImg (I := I) c w).1 = Respond StatusOK (Blob data)) /\
  (GoStd.HasSuffix (Param c "imageFilename") ".jpg" = true ->
   fs w !! ("images/" +:+ Param c "imageFilename") = None ->
   forall wr data,
     fs w !! "images/default.jpg" = Some (Reg true wr data) ->
     (Shared.getImg (I := I) c w).1 = Respond StatusOK (Blob data)).
Proof.
  intros Hs. unfold Shared.getImg, Shared.ImgDir.
  rewrite (HasSuffix_Join_images _ Hs). repeat split.
  - by intros ->.
  - intros Hj wr data Hf. rewrite Hj. simpl negb. cbv iota.
    destruct (jpg_element _ Hj) as (H0 & H1 & H2).
    rewrite Join_images by done. unfold os_Stat, c_File, os_Open. by rewrite Hf.
  - intros Hj Hf wr data Hdef. rewrite Hj. simpl negb. cbv iota.
    destruct (jpg_element _ Hj) as (H0 & H1 & H2).
    rewrite Join_images by done. unfold os_Stat. rewrite Hf.
    change (GoStd.Join "images" "default.jpg") with "images/default.jpg".
    change (Logf "DEBUG" _ w) with w.
    unfold c_File, os_Open. by rewrite Hdef.
Qed.

Lemma C7_fetch_witness :
  (V1.getImg (Sample.fetch "nope.png") Sample.fresh).1
  = Respond StatusBadRequest (Message "Image path does not end with .jpg") /\
  (V1.getImg (Sample.fetch "default.jpg") Sample.fresh).1
  = Respond StatusOK (Blob "default image") /\
  (V1.getImg (Sample.fetch "nope.jpg") Sample.fresh).1
  = Respond StatusOK (Blob "default image").
Proof.
  destruct (C7_fetch (I := V1.Item) (Sample.fetch "nope.png") Sample.fresh eq_refl)
    as (H1 & _ & _).
  destruct (C7_fetch (I := V1.Item) (Sample.fetch "default.jpg") Sample.fresh eq_refl)
    as (_ & H2 & _).
  destruct (C7_fetch (I := V1.Item) (Sample.fetch "nope.jpg") Sample.fresh eq_refl)
    as (_ & _ & H3).
  split; [|split].
  - apply H1. reflexivity.
  - apply (H2 eq_refl true). reflexivity.
  - apply (H3 eq_refl eq_refl true). reflexivity.
Defined.

(** C7, as stated, fails: the check is made on the cleaned path, and the
    router hands a last parameter the rest of the URL, slashes included.
    The name "default.jpg/" does not end in ".jpg", its path is cleaned to
    images/default.jpg, and the file is served. *)
Lemma C7_counterexample :
  ~ (forall (c : Context) (w : world),
       GoStd.HasSuffix (Param c "imageFilename") ".jpg" = false ->
       status (V1.getImg c w).1 = StatusBadRequest).
Proof.
  intros H.
  pose proof (H (Sample.fetch "default.jpg/") Sample.fresh eq_refl) as E.
  vm_compute in E. discriminate.
Qed.

Example fetch_trailing_slash :
  GoStd.Join Shared.ImgDir "default.jpg/" = "images/default.jpg" /\
  (V1.getImg (Sample.fetch "default.jpg/") Sample.fresh).1
  = Respond 200 (Blob "default image").
Proof. vm_compute. done. Qed.

(** Without images/default.jpg the fallback is a 404. *)
Example fetch_without_default :
  status (V1.getImg (Sample.fetch "nope.jpg") Sample.catalog_is_dir).1 = 404%Z.
Proof. reflexivity. Qed.

(** The image store is written under ../images and read under images:
    what add has saved is not what fetch serves. *)
Example fetch_after_add :
  let w1 := (V1.addItem (json := PlainJSON.json_V1) Sample.shoes Sample.fresh).2 in
  fs w1 !! ("../images/" +:+ hashed_name "shoes.jpg")
    = Some (Reg true true "shoes, first photo") /\
  fs w1 !! ("images/" +:+ hashed_name "shoes.jpg") = None /\
  (V1.getImg (Sample.fetch (hashed_name "shoes.jpg")) w1).1
    = Respond 200 (Blob "default image").
Proof. vm_compute. done. Qed.

(** * More of the flat-file programs *)

(** ** Add appends *)

(** X1: in go/app/main.go, when items.json can be read and written and the
    document written decodes to the items it was made from, the list after
    an add of a ".jpg" image is the list before it followed by the new
    item: nothing is lost, nothing is reordered. *)
Theorem X1_flat_add_appends {json : JSON V1.Items} (c g : Context) (w : world)
    (image : FileHeader) (data doc : string) :
  FormFile c "image" = inl image ->
  GoStd.HasSuffix (Filename image) ".jpg" = true ->
  fs w !! V1.ItemFile = Some (Reg true true data) ->
  json_Marshal {| V1.Items_ := decode1 data ++ [new_item1 c image] |} = inl doc ->
  decode1 doc = decode1 data ++ [new_item1 c image] ->
  listed (V1.getItems g w).1 = Some (decode1 data) /\
  listed (V1.getItems g (V1.addItem c w).2).1
  = Some (decode1 data ++ [new_item1 c image]).
Proof.
  intros Hform Hjpg Hfile Henc Hdec.
  destruct (V1_updateJson_writes (FormValue c "name") (FormValue c "category")
              image (received c image w) data doc Hjpg Hfile Henc) as [_ Hw].
  rewrite <- (V1_addItem_catalog c w image Hform) in Hw.
  rewrite (V1_getItems_reads g w true data Hfile).
  rewrite (V1_getItems_reads g _ true doc Hw). simpl. by rewrite Hdec.
Qed.

Section Flat_runs.
#[local] Existing Instance PlainJSON.json_V1.

Lemma X1_flat_add_appends_witness :
  listed (V1.getItems Sample.shoes (V1.addItem Sample.shoes Sample.fresh).2).1
  = Some [Sample2.shoes_item] /\
  listed (V1.getItems Sample.shoes
            (V1.addItem Sample2.hat (V1.addItem Sample.shoes Sample.fresh).2).2).1
  = Some [Sample2.shoes_item; Sample2.hat_item].
Proof.
  destruct (X1_flat_add_appends Sample2.hat Sample.shoes
              (V1.addItem Sample.shoes Sample.fresh).2
              (PlainJSON.upload "hat.jpg" "a hat")
              (Sample2.doc1 [Sample2.shoes_item])
              (Sample2.doc1 [Sample2.shoes_item; Sample2.hat_item]))
    as [H1 H2]; [vm_compute; reflexivity ..|].
  split; [rewrite H1 | rewrite H2]; vm_compute; reflexivity.
Defined.

End Flat_runs.

(** ** Positions after an add *)

(** X2: under the same conditions the positional ids do not move: the id
    that spells the old length, unknown before the add, names the new item
    after it, and every smaller id names the item it named before. *)
Theorem X2_flat_ids_after_add {json : JSON V1.Items} (c g : Context) (w : world)
    (image : FileHeader) (data doc : string) (n : nat) :
  FormFile c "image" = inl image ->
  GoStd.HasSuffix (Filename image) ".jpg" = true ->
  fs w !! V1.ItemFile = Some (Reg true true data) ->
  json_Marshal {| V1.Items_ := decode1 data ++ [new_item1 c image] |} = inl doc ->
  decode1 doc = decode1 data ++ [new_item1 c image] ->
  Param g "itemID" = GoStd.Itoa n ->
  (n = length (decode1 data) ->
   (V1.getItemsByID g w).1 = Respond StatusNotFound Null /\
   (V1.getItemsByID g (V1.addItem c w).2).1
   = Respond StatusOK (OneItem (new_item1 c image))) /\
  (n < length (decode1 data) ->
   (V1.getItemsByID g (V1.addItem c w).2).1 = (V1.getItemsByID g w).1) /\
  (length (decode1 data) < n ->
   (V1.getItemsByID g (V1.addItem c w).2).1 = Respond StatusNotFound Null).
Proof.
  intros Hform Hjpg Hfile Henc Hdec Hid.
  destruct (V1_updateJson_writes (FormValue c "name") (FormValue c "category")
              image (received c image w) data doc Hjpg Hfile Henc) as [_ Hw].
  rewrite <- (V1_addItem_catalog c w image Hform) in Hw.
  rewrite (V1_getItemsByID_reads g w true data Hfile).
  rewrite (V1_getItemsByID_reads g _ true doc Hw).
  rewrite Hid, Hdec, !range_find_Itoa, !Nat.sub_0_r by lia.
  split; [|split].
  - intros ->. rewrite lookup_ge_None_2 by lia.
    by rewrite list_lookup_middle.
  - intros Hn. by rewrite lookup_app_l.
  - intros Hn. rewrite lookup_ge_None_2; [done |]. rewrite length_app. simpl. lia.
Qed.

Section Flat_runs2.
#[local] Existing Instance PlainJSON.json_V1.

Lemma X2_flat_ids_after_add_witness :
  (V1.getItemsByID (Sample.get "1") (V1.addItem Sample.shoes Sample.fresh).2).1
  = Respond StatusNotFound Null /\
  (V1.getItemsByID (Sample.get "1")
     (V1.addItem Sample2.hat (V1.addItem Sample.shoes Sample.fresh).2).2).1
  = Respond StatusOK (OneItem Sample2.hat_item).
Proof.
  destruct (X2_flat_ids_after_add Sample2.hat (Sample.get "1")
              (V1.addItem Sample.shoes Sample.fresh).2
              (PlainJSON.upload "hat.jpg" "a hat")
              (Sample2.doc1 [Sample2.shoes_item])
              (Sample2.doc1 [Sample2.shoes_item; Sample2.hat_item]) 1)
    as [H _]; [vm_compute; reflexivity ..|].
  apply H. vm_compute. reflexivity.
Defined.

End Flat_runs2.

(** ** A catalog that does not decode *)

(** X3: [updateJson] drops the error of [json.Unmarshal].  When the
    content of items.json is refused by the decoder, which leaves the items
    empty, list answers 200 with no item, and an add replaces the content
    by the document of the new item alone. *)
Theorem X3_undecodable_catalog_replaced {json : JSON V1.Items} (c g : Context)
    (w : world) (image : FileHeader) (data doc : string) (e : error) :
  FormFile c "image" = inl image ->
  GoStd.HasSuffix (Filename image) ".jpg" = true ->
  fs w !! V1.ItemFile = Some (Reg true true data) ->
  json_Unmarshal data {| V1.Items_ := [] |} = ({| V1.Items_ := [] |}, Some e) ->
  json_Marshal {| V1.Items_ := [new_item1 c image] |} = inl doc ->
  (V1.getItems g w).1 = Respond StatusOK (ItemsOf []) /\
  (V1.addItem c w).1
  = Respond StatusOK (Message ("item received: " +:+ FormValue c "name")) /\
  fs (V1.addItem c w).2 !! V1.ItemFile = Some (Reg true true doc).
Proof.
  intros Hform Hjpg Hfile Hbad Henc.
  assert (decode1 data = []) as Hnil by (unfold decode1; by rewrite Hbad).
  split; [|split].
  - rewrite (V1_getItems_reads g w true data Hfile). by rewrite Hnil.
  - by apply (V1_addItem_response c w image).
  - rewrite (V1_addItem_catalog c w image Hform).
    apply (V1_updateJson_writes _ _ image (received c image w) data doc Hjpg Hfile).
    by rewrite Hnil.
Qed.

Section Flat_runs3.
#[local] Existing Instance PlainJSON.json_V1.

Lemma X3_undecodable_catalog_replaced_witness :
  (V1.getItems Sample.shoes Sample2.corrupt).1 = Respond StatusOK (ItemsOf []) /\
  (V1.addItem Sample.shoes Sample2.corrupt).1
  = Respond StatusOK (Message "item received: shoes") /\
  fs (V1.addItem Sample.shoes Sample2.corrupt).2 !! V1.ItemFile
  = Some (Reg true true (Sample2.doc1 [Sample2.shoes_item])).
Proof.
  apply (X3_undecodable_catalog_replaced Sample.shoes Sample.shoes Sample2.corrupt
           (PlainJSON.upload "shoes.jpg" "shoes, first photo")
           "<html>not a catalog</html>" (Sample2.doc1 [Sample2.shoes_item])
           (Errorf "invalid character")); vm_compute; reflexivity.
Defined.

End Flat_runs3.

(** ** The earliest program *)

Section Earliest.
Context {json : JSON V0.Items}.

Lemma V0_getItems_reads (c : Context) (w : world) (wr : bool) (data : string) :
  fs w !! "items.json" = Some (Reg true wr data) ->
  V0.getItems c w = (Respond StatusOK (ItemsOf (decode0 data)), w).
Proof. intros E. unfold V0.getItems, os_Open. rewrite E. reflexivity. Qed.

Lemma V0_updateJson_writes (name category : string) (image : FileHeader)
    (w : world) (data doc : string) :
  fs w !! "items.json" = Some (Reg true true data) ->
  json_Marshal
    {| V0.Items_ := decode0 data ++
         [{| V0.Name := name; V0.Category := category;
             V0.ImageFileName := hashed_name (Filename image) |}] |} = inl doc ->
  fs (V0.updateJson name category image w) !! "items.json"
  = Some (Reg true true doc).
Proof.
  intros Hf Hm. unfold V0.updateJson, os_Open. rewrite Hf. simpl ioutil_ReadAll.
  cbv iota. unfold decode0, hashed_name in Hm. rewrite Hm.
  destruct (WriteFile_existing "items.json" doc (fs w) true data Hf)
    as (fs1 & -> & Hl & _). done.
Qed.

Lemma V0_addItem_catalog (c : Context) (w : world) (image : FileHeader) :
  FormFile c "image" = inl image ->
  fs (V0.addItem c w).2 !! "items.json"
  = fs (V0.updateJson (FormValue c "name") (FormValue c "category") image
          (received c image w)) !! "items.json".
Proof.
  intros E. unfold V0.addItem. rewrite E. simpl.
  unfold V0.saveImageToLocal. apply save_frame. discriminate.
Qed.

End Earliest.

(** X4: the earliest program checks no extension and names every image
    ".jpg".  When items.json can be read and written and the document
    written decodes to the items it was made from, an add of any file
    name, "shoes.png" as well, appends an item whose imageFileName is
    hex(SHA-256(name)) + ".jpg" to the list. *)
Theorem X4_earliest_add_appends {json : JSON V0.Items} (c g : Context) (w : world)
    (image : FileHeader) (data doc : string) :
  FormFile c "image" = inl image ->
  fs w !! "items.json" = Some (Reg true true data) ->
  json_Marshal {| V0.Items_ := decode0 data ++ [new_item0 c image] |} = inl doc ->
  decode0 doc = decode0 data ++ [new_item0 c image] ->
  listed (V0.getItems g (V0.addItem c w).2).1
  = Some (decode0 data ++ [new_item0 c image]) /\
  GoStd.HasSuffix (V0.ImageFileName (new_item0 c image)) ".jpg" = true.
Proof.
  intros Hform Hfile Henc Hdec.
  pose proof (V0_updateJson_writes (FormValue c "name") (FormValue c "category")
                image (received c image w) data doc Hfile Henc) as Hw.
  rewrite <- (V0_addItem_catalog c w image Hform) in Hw.
  rewrite (V0_getItems_reads g _ true doc Hw). simpl. rewrite Hdec.
  split; [done | apply hashed_name_jpg].
Qed.

Section Earliest_runs.
#[local] Existing Instance PlainJSON.json_V0.

Lemma X4_earliest_add_appends_witness :
  listed (V0.getItems Sample.shoes (V0.addItem Sample.shoes_png Sample.fresh).2).1
  = Some [{| V0.Name := "shoes"; V0.Category := "fashion";
             V0.ImageFileName := hashed_name "shoes.png" |}] /\
  GoStd.HasSuffix (hashed_name "shoes.png") ".jpg" = true.
Proof.
  destruct (X4_earliest_add_appends Sample.shoes_png Sample.shoes Sample.fresh
              (PlainJSON.upload "shoes.png" "a png") Sample.empty_doc
              (Sample2.doc0 [{| V0.Name := "shoes"; V0.Category := "fashion";
                                V0.ImageFileName := hashed_name "shoes.png" |}]))
    as [H1 H2]; [vm_compute; reflexivity ..|].
  split; [rewrite H1 |]; vm_compute; reflexivity.
Defined.

End Earliest_runs.

(** * More of the relational program *)

Section RelationalAdd.

Lemma max_id_bound (rows : list row) (r : row) :
  In r rows -> (row_id r <= SQLite.max_id rows)%Z.
Proof.
  unfold SQLite.max_id. induction rows as [|x rows IH]; simpl; [done |].
  intros [-> | H]; [lia |]. apply IH in H. lia.
Qed.

(** [addItemToDatabase], case by case. *)
Lemma addItemToDatabase_cases (name category : string) (image : FileHeader)
    (w : world) :
  V2.addItemToDatabase name category image w
  = if negb (GoStd.HasSuffix (Filename image) ".jpg") then
      (Val (Some (Errorf "image extension is not jpg")), w)
    else if negb (driver_ok (db w)) then
      (Val (Some (SQLError "sql: unknown driver sqlite3 (forgotten import?)")), w)
    else if negb (db_file_ok (db w)) then
      (Val (Some (SQLError "unable to open database file")), w)
    else if read_only (db w) then
      (if has_table (db w) then Val None else Panics, w)
    else
      (Val None,
       set_db w (inserted (db w) name category (hashed_name (Filename image)))).
Proof.
  unfold V2.addItemToDatabase. rewrite Ext_jpg.
  destruct (GoStd.HasSuffix (Filename image) ".jpg"); [|done].
  destruct w as [f [dr fo ro [rows|] sq] o]; destruct dr, fo, ro; reflexivity.
Qed.

Lemma db_received (c : Context) (image : FileHeader) (w : world) :
  db (received c image w) = db w.
Proof. reflexivity. Qed.

(** The answer of [addItem] and the database it leaves, case by case. *)
Lemma V2_addItem_cases (c : Context) (w : world) (image : FileHeader) :
  FormFile c "image" = inl image ->
  ((V2.addItem c w).1, db (V2.addItem c w).2)
  = if negb (GoStd.HasSuffix (Filename image) ".jpg") then
      (Respond StatusInternalServerError
         (ErrBody (Errorf "image extension is not jpg")), db w)
    else if negb (driver_ok (db w)) then
      (Respond StatusInternalServerError
         (ErrBody (SQLError "sql: unknown driver sqlite3 (forgotten import?)")),
       db w)
    else if negb (db_file_ok (db w)) then
      (Respond StatusInternalServerError
         (ErrBody (SQLError "unable to open database file")), db w)
    else if read_only (db w) then
      (if has_table (db w)
       then Respond StatusOK (Message ("item received: " +:+ FormValue c "name"))
       else Panic, db w)
    else
      (Respond StatusOK (Message ("item received: " +:+ FormValue c "name")),
       inserted (db w) (FormValue c "name") (FormValue c "category")
         (hashed_name (Filename image))).
Proof.
  intros Hform. unfold V2.addItem. rewrite Hform.
  change (Logf "INFO" ("Receive image: " +:+ Filename image)
            (Logf "INFO" ("Receive category: " +:+ FormValue c "category")
               (Logf "INFO" ("Receive item: " +:+ FormValue c "name") w)))
    with (received c image w).
  rewrite addItemToDatabase_cases, db_received.
  destruct (negb (GoStd.HasSuffix (Filename image) ".jpg")); [done |].
  destruct (negb (driver_ok (db w))); [done |].
  destruct (negb (db_file_ok (db w))); [done |].
  destruct (read_only (db w)).
  - destruct (has_table (db w)); [|done]. cbn [fst snd].
    unfold V2.saveImageToLocal. by rewrite save_db.
  - cbn [fst snd]. unfold V2.saveImageToLocal. by rewrite save_db.
Qed.

Lemma inserted_rows (d : database) (name category image : string) :
  rows_now (inserted d name category image)
  = rows_now d ++ [(next_id d, Some name, Some category, Some image)].
Proof. reflexivity. Qed.

Lemma next_id_above (d : database) (r : row) :
  In r (rows_now d) -> (row_id r < next_id d)%Z.
Proof. intros H. apply max_id_bound in H. unfold next_id. lia. Qed.

End RelationalAdd.

(** ** What an add writes *)

(** X5: on a database that can be reached and accepts writes, the
    relational add of a ".jpg" image answers 200 and appends one row to the
    table, which it creates when there is none: the name and category of
    the form, the image name hex(SHA-256(file name)) + ".jpg", and an id
    above every id of the table and above the sequence. *)
Theorem X5_relational_add_inserts (c : Context) (w : world) (image : FileHeader) :
  FormFile c "image" = inl image ->
  GoStd.HasSuffix (Filename image) ".jpg" = true ->
  writable (db w) ->
  (V2.addItem c w).1
  = Respond StatusOK (Message ("item received: " +:+ FormValue c "name")) /\
  rows_now (db (V2.addItem c w).2)
  = rows_now (db w) ++ [row_of (new_item2 (next_id (db w)) c image)] /\
  seq (db (V2.addItem c w).2) = next_id (db w) /\
  (seq (db w) < next_id (db w))%Z /\
  (forall r, In r (rows_now (db w)) -> (row_id r < next_id (db w))%Z).
Proof.
  intros Hform Hjpg (Hd & Hf & Hr).
  pose proof (V2_addItem_cases c w image Hform) as H.
  rewrite Hjpg, Hd, Hf, Hr in H. simpl in H. injection H as H1 H2.
  rewrite H1, H2. repeat split; try done.
  - unfold next_id. lia.
  - apply next_id_above.
Qed.

Lemma X5_relational_add_inserts_witness :
  (V2.addItem Sample2.hat (V2.addItem Sample.shoes Sample.fresh).2).1
  = Respond StatusOK (Message "item received: hat") /\
  rows_now (db (V2.addItem Sample2.hat (V2.addItem Sample.shoes Sample.fresh).2).2)
  = [(1%Z, Some "shoes", Some "fashion", Some (hashed_name "shoes.jpg"));
     (2%Z, Some "hat", Some "fashion", Some (hashed_name "hat.jpg"))].
Proof.
  destruct (X5_relational_add_inserts Sample2.hat
              (V2.addItem Sample.shoes Sample.fresh).2
              (PlainJSON.upload "hat.jpg" "a hat"))
    as (H1 & H2 & _); [vm_compute; done ..|].
  split; [exact H1 | rewrite H2; vm_compute; reflexivity].
Defined.

(** ** Ids *)

Lemma V2_addItem_db (c : Context) (w : world) :
  db (V2.addItem c w).2 = db w \/
  exists name category image,
    db (V2.addItem c w).2 = inserted (db w) name category image.
Proof.
  destruct (FormFile c "image") as [image | err] eqn:Hform.
  - pose proof (V2_addItem_cases c w image Hform) as H.
    destruct (negb _); [injection H; auto |].
    destruct (negb _); [injection H; auto |].
    destruct (negb _); [injection H; auto |].
    destruct (read_only (db w)); [injection H; auto |].
    injection H as _ H. right. eauto.
  - left. unfold V2.addItem. by rewrite Hform.
Qed.

Lemma inserted_unique (d : database) (name category image : string) :
  unique_ids d -> unique_ids (inserted d name category image).
Proof.
  unfold unique_ids. rewrite inserted_rows, List.map_app. simpl. intros H.
  apply NoDup_app. split; [exact H |]. split; [|apply NoDup_singleton].
  intros x Hx Hin. apply list_elem_of_In in Hx. apply in_map_iff in Hx as (r & <- & Hr).
  apply list_elem_of_singleton in Hin. apply next_id_above in Hr.
  change (row_id (next_id d, Some name, Some category, Some image))
    with (next_id d) in Hin. lia.
Qed.

(** X6: no sequence of adds gives two rows the same id: the ids of the
    table, distinct before, are distinct after. *)
Theorem X6_ids_stay_unique (adds : list Context) (w : world) :
  unique_ids (db w) ->
  unique_ids (db (fold_left (fun w a => (V2.addItem a w).2) adds w)).
Proof.
  revert w. induction adds as [|a adds IH]; intros w H; simpl; [done |].
  apply IH. destruct (V2_addItem_db a w) as [-> | (n & c & i & ->)]; [done |].
  by apply inserted_unique.
Qed.

Lemma X6_ids_stay_unique_witness :
  unique_ids
    (db (fold_left (fun w a => (V2.addItem a w).2)
           [Sample.shoes; Sample2.hat; Sample.shoes_png; Sample.shoes_again]
           Sample.fresh)).
Proof.
  apply (X6_ids_stay_unique
           [Sample.shoes; Sample2.hat; Sample.shoes_png; Sample.shoes_again]
           Sample.fresh).
  apply NoDup_nil_2.
Defined.

(** X7: the relational add never removes or changes a row: after any
    sequence of adds the rows of the table are the rows it had, in their
    order, followed by at most one new row for each add. *)
Theorem X7_rows_only_appended (adds : list Context) (w : world) :
  exists more,
    rows_now (db (fold_left (fun w a => (V2.addItem a w).2) adds w))
    = rows_now (db w) ++ more /\
    length more <= length adds.
Proof.
  revert w. induction adds as [|a adds IH]; intros w; simpl.
  - exists []. by rewrite app_nil_r.
  - destruct (IH (V2.addItem a w).2) as (more & -> & Hlen).
    destruct (V2_addItem_db a w) as [-> | (n & c & i & ->)].
    + exists more. split; [done | lia].
    + rewrite inserted_rows, <- app_assoc. eexists. split; [done |]. simpl. lia.
Qed.

(** ** Add, then get by id *)

Lemma inserted_serving (d : database) (name category image : string) :
  driver_ok d = true -> db_file_ok d = true ->
  serving (inserted d name category image)
    (rows_now d ++ [(next_id d, Some name, Some category, Some image)]).
Proof. intros Hd Hf. by repeat split. Qed.

(** X8: on a database that can be reached and accepts writes, the item a
    relational add has inserted is the one get-by-id returns for its id,
    with the name, the category and the hashed image name of the add. *)
Theorem X8_relational_add_then_get (tai : string -> option Z) (c g : Context)
    (w : world) (image : FileHeader) :
  FormFile c "image" = inl image ->
  GoStd.HasSuffix (Filename image) ".jpg" = true ->
  writable (db w) ->
  tai (Param g "itemID") = Some (next_id (db w)) ->
  (V2.getItemByID tai g (V2.addItem c w).2).1
  = Respond StatusOK (OneItem (new_item2 (next_id (db w)) c image)).
Proof.
  intros Hform Hjpg (Hd & Hf & Hr) Hid.
  pose proof (V2_addItem_cases c w image Hform) as H.
  rewrite Hjpg, Hd, Hf, Hr in H. simpl in H. injection H as _ Hdb.
  rewrite (V2_getItemByID_serving tai g _ _
             (eq_ind_r (fun d => serving d _) (inserted_serving _ _ _ _ Hd Hf) Hdb)).
  rewrite List.filter_app.
  rewrite (filter_none _ (rows_now (db w))).
  - simpl. unfold SQLite.selects, SQLite.eval_where. rewrite Hid. simpl.
    change (row_id (next_id (db w), _, _, _)) with (next_id (db w)).
    by rewrite Z.eqb_refl.
  - intros r Hin. unfold SQLite.selects, SQLite.eval_where. rewrite Hid.
    apply next_id_above in Hin. apply Z.eqb_neq. lia.
Qed.

Lemma X8_relational_add_then_get_witness :
  (V2.getItemByID PlainJSON.decimal (Sample.get "2")
     (V2.addItem Sample2.hat (V2.addItem Sample.shoes Sample.fresh).2).2).1
  = Respond StatusOK
      (OneItem {| V2.ID := 2; V2.Name := "hat"; V2.Category := "fashion";
                  V2.ImageFileName := hashed_name "hat.jpg" |}).
Proof.
  apply (X8_relational_add_then_get PlainJSON.decimal Sample2.hat (Sample.get "2")
           (V2.addItem Sample.shoes Sample.fresh).2
           (PlainJSON.upload "hat.jpg" "a hat")); vm_compute; done.
Defined.

(** ** Add, then search *)

(** X9: on a database that can be reached, accepts writes and holds the
    items [its], the search for the very name of an item just added answers
    200.  When the name has at most 49998 bytes the list holds the new
    item, whatever the name, "%" and "_" in it included, after the items
    of [its] that match; when the name is longer the engine refuses the
    pattern and the list holds no item, the new one no more than the
    others. *)
Theorem X9_relational_add_then_search (tai : string -> option Z) (c g : Context)
    (w : world) (image : FileHeader) (its : list V2.Item) :
  FormFile c "image" = inl image ->
  GoStd.HasSuffix (Filename image) ".jpg" = true ->
  writable (db w) ->
  rows_now (db w) = List.map row_of its ->
  QueryParam g "keyword" = FormValue c "name" ->
  ((Z.of_nat (String.length (FormValue c "name")) <= 49998)%Z ->
   (V2.searchItems tai g (V2.addItem c w).2).1
   = Respond StatusOK
       (ItemList
          (List.filter
             (fun i => SQLite.like ("%" +:+ FormValue c "name" +:+ "%") (V2.Name i))
             its
           ++ [new_item2 (next_id (db w)) c image]))) /\
  ((49998 < Z.of_nat (String.length (FormValue c "name")))%Z ->
   (V2.searchItems tai g (V2.addItem c w).2).1 = Respond StatusOK (ItemList [])).
Proof.
  intros Hform Hjpg (Hd & Hf & Hr) Hrows Hkw.
  pose proof (V2_addItem_cases c w image Hform) as H.
  rewrite Hjpg, Hd, Hf, Hr in H. simpl in H. injection H as _ Hdb.
  assert (serving (db (V2.addItem c w).2)
            (List.map row_of (its ++ [new_item2 (next_id (db w)) c image]))) as Hs.
  { rewrite Hdb, List.map_app, <- Hrows. by apply inserted_serving. }
  rewrite (searchItems_answer tai g _ _ Hs), Hkw. split; intros Hlen.
  - rewrite (proj2 (Z.leb_le _ _) Hlen), List.filter_app.
    simpl. by rewrite like_own_name.
  - by rewrite (proj2 (Z.leb_gt _ _) Hlen).
Qed.

Lemma X9_relational_add_then_search_witness :
  (V2.searchItems PlainJSON.decimal (Sample.search "100%_wool")
     (V2.addItem Sample2.odd_name (V2.addItem Sample.shoes Sample.fresh).2).2).1
  = Respond StatusOK
      (ItemList [{| V2.ID := 2; V2.Name := "100%_wool"; V2.Category := "fashion";
                    V2.ImageFileName := hashed_name "wool.jpg" |}]) /\
  (V2.searchItems PlainJSON.decimal (Sample.search Sample2.percents)
     (V2.addItem Sample2.long_name (V2.addItem Sample.shoes Sample.fresh).2).2).1
  = Respond StatusOK (ItemList []).
Proof.
  set (w := (V2.addItem Sample.shoes Sample.fresh).2).
  set (its := [{| V2.ID := 1; V2.Name := "shoes"; V2.Category := "fashion";
                  V2.ImageFileName := hashed_name "shoes.jpg" |}]).
  assert (GoStd.HasSuffix "wool.jpg" ".jpg" = true) as Hjpg by reflexivity.
  assert (writable (db w)) as Hw by (vm_compute; done).
  assert (rows_now (db w) = List.map row_of its) as Hrows
    by (vm_compute; reflexivity).
  split.
  - destruct (X9_relational_add_then_search PlainJSON.decimal Sample2.odd_name
                (Sample.search "100%_wool") w (PlainJSON.upload "wool.jpg" "wool")
                its eq_refl Hjpg Hw Hrows eq_refl) as [H _].
    rewrite H by (vm_compute; discriminate). vm_compute. reflexivity.
  - destruct (X9_relational_add_then_search PlainJSON.decimal Sample2.long_name
                (Sample.search Sample2.percents) w
                (PlainJSON.upload "wool.jpg" "wool")
                its eq_refl Hjpg Hw Hrows eq_refl) as [_ H].
    apply H. vm_compute. reflexivity.
Defined.

(** ** The answer of the relational add *)

(** X10: once the form holds an image, the relational add answers 200
    exactly when the file name ends in ".jpg", the database can be reached,
    and it accepts writes or holds the table already; it answers 500
    otherwise.  Nothing is written with a 500, and nothing either with the
    200 of a database that refuses writes. *)
Theorem X10_relational_add_answer (c : Context) (w : world) (image : FileHeader) :
  FormFile c "image" = inl image ->
  status (V2.addItem c w).1
  = (if GoStd.HasSuffix (Filename image) ".jpg" && driver_ok (db w) &&
        db_file_ok (db w) && (negb (read_only (db w)) || has_table (db w))
     then StatusOK else StatusInternalServerError) /\
  (status (V2.addItem c w).1 = StatusInternalServerError ->
   db (V2.addItem c w).2 = db w) /\
  (read_only (db w) = true -> db (V2.addItem c w).2 = db w).
Proof.
  intros Hform. pose proof (V2_addItem_cases c w image Hform) as H.
  destruct (GoStd.HasSuffix (Filename image) ".jpg"), (driver_ok (db w)),
    (db_file_ok (db w)), (read_only (db w)), (has_table (db w));
    simpl in H; injection H as -> ->; repeat split; try done.
Qed.

Lemma X10_relational_add_answer_witness :
  status (V2.addItem Sample.shoes Sample.read_only_db).1 = StatusOK /\
  db (V2.addItem Sample.shoes Sample.read_only_db).2 = db Sample.read_only_db.
Proof.
  destruct (X10_relational_add_answer Sample.shoes Sample.read_only_db
              (PlainJSON.upload "shoes.jpg" "shoes, first photo") eq_refl)
    as (H1 & _ & H3).
  split; [rewrite H1; reflexivity | apply H3; reflexivity].
Defined.

(** * More of the image store *)

(** ** What a save touches *)

(** X11: saving an image writes the database never, and no path but the
    image's own; when the upload does not open or its file cannot be
    created, the file system is left as it was. *)
Theorem X11_save_touches_one_path (image : FileHeader) (w : world) :
  db (Shared.saveImageToLocal image w) = db w /\
  (forall p, p <> "../images/" +:+ hashed_name (Filename image) ->
     fs (Shared.saveImageToLocal image w) !! p = fs w !! p) /\
  ((exists e, Open image = inr e) \/
   (exists e, os_Create ("../images/" +:+ hashed_name (Filename image)) (fs w)
              = inr e) ->
   fs (Shared.saveImageToLocal image w) = fs w).
Proof.
  split; [apply save_db |]. split; [intros p; apply save_frame |].
  unfold Shared.saveImageToLocal. fold (hashed_name (Filename image)).
  rewrite save_path. intros [[e He] | [e He]].
  - by rewrite He.
  - destruct (Open image); [|done]. by rewrite He.
Qed.

Lemma X11_save_touches_one_path_witness :
  fs (Shared.saveImageToLocal (PlainJSON.upload "shoes.jpg" "a photo")
        Sample.catalog_is_dir)
  = fs Sample.catalog_is_dir.
Proof.
  destruct (X11_save_touches_one_path (PlainJSON.upload "shoes.jpg" "a photo")
              Sample.catalog_is_dir) as (_ & _ & H).
  apply H. right. eexists. vm_compute. reflexivity.
Defined.

(** ** A copy that breaks off *)

(** X12: the file of the image is emptied before the copy.  When the copy
    ends in an error, the file holds what had been read by then, what it
    held before is gone, and one line is printed. *)
Theorem X12_failed_copy_truncates (image : FileHeader) (src : reader) (w : world)
    (old : string) :
  Open image = inl src ->
  r_fails src = true ->
  fs w !! ("../images/" +:+ hashed_name (Filename image))
  = Some (Reg true true old) ->
  fs (Shared.saveImageToLocal image w)
    !! ("../images/" +:+ hashed_name (Filename image))
  = Some (Reg true true (r_data src)) /\
  out (Shared.saveImageToLocal image w)
  = out w ++ ["Cannot copy image:  " +:+ Error ErrReader].
Proof.
  intros Ho Hr Hf. unfold Shared.saveImageToLocal. rewrite Ho.
  fold (hashed_name (Filename image)). rewrite save_path.
  unfold os_Create, open_trunc. rewrite Hf. simpl.
  unfold io_Copy, write_data. rewrite Hr. simpl.
  rewrite lookup_insert_eq. simpl. by rewrite lookup_insert_eq.
Qed.

Section X12_runs.
#[local] Existing Instance PlainJSON.json_V1.

Lemma X12_failed_copy_truncates_witness :
  fs (Shared.saveImageToLocal Sample2.broken_upload
        (V1.addItem Sample.shoes Sample.fresh).2)
    !! ("../images/" +:+ hashed_name "shoes.jpg")
  = Some (Reg true true "sho") /\
  out (Shared.saveImageToLocal Sample2.broken_upload
         (V1.addItem Sample.shoes Sample.fresh).2)
  = out (V1.addItem Sample.shoes Sample.fresh).2
    ++ ["Cannot copy image:  " +:+ Error ErrReader].
Proof.
  apply (X12_failed_copy_truncates Sample2.broken_upload
           {| r_data := "sho"; r_fails := true |}
           (V1.addItem Sample.shoes Sample.fresh).2 "shoes, first photo");
    vm_compute; reflexivity.
Defined.

End X12_runs.

(** ** The shape of the image names *)

Section NameShape.

Lemma round_length (s : list Z) (kw : Z * Z) :
  length (SHA256.round s kw) = length s.
Proof.
  unfold SHA256.round.
  destruct s as [|a [|b [|c [|d [|e [|f [|g [|h [|i s]]]]]]]]]; reflexivity.
Qed.

Lemma rounds_length (l : list (Z * Z)) (s : list Z) :
  length (fold_left SHA256.round l s) = length s.
Proof.
  revert s. induction l as [|kw l IH]; intros s; simpl; [done |].
  by rewrite IH, round_length.
Qed.

Lemma compress_length (s block : list Z) :
  length (SHA256.compress s block) = length s.
Proof.
  unfold SHA256.compress.
  rewrite length_map, length_combine, rounds_length. lia.
Qed.

Lemma blocks_length (n : nat) (s b : list Z) :
  length (SHA256.blocks n s b) = length s.
Proof.
  revert s b. induction n as [|n IH]; intros s b; simpl; [done |].
  by rewrite IH, compress_length.
Qed.

Lemma words_bytes_length (s : list Z) :
  length (concat (List.map (SHA256.be_bytes 4) s)) = 4 * length s.
Proof.
  induction s as [|x s IH]; [done |].
  change (concat (List.map (SHA256.be_bytes 4) (x :: s)))
    with (SHA256.be_bytes 4 x ++ concat (List.map (SHA256.be_bytes 4) s)).
  rewrite length_app, IH. simpl. lia.
Qed.

(** The digest has 32 bytes. *)
Lemma Sum256_length (data : string) : length (SHA256.Sum256 data) = 32.
Proof.
  unfold SHA256.Sum256. rewrite words_bytes_length, blocks_length. reflexivity.
Qed.

Lemma hex_length (b : list Z) : String.length (GoStd.hex b) = 2 * length b.
Proof. induction b as [|x b IH]; simpl; [done | rewrite IH; lia]. Qed.

Lemma hex_digit_lower (y : Z) :
  lower_hex (GoStd.hex_digit (Z.land y 15)) = true.
Proof.
  assert (0 <= Z.land y 15 < 16)%Z as Hb.
  { change 15%Z with (Z.ones 4). rewrite Z.land_ones by lia.
    apply Z.mod_pos_bound. lia. }
  remember (Z.land y 15) as v eqn:E. clear E.
  assert (v = 0 \/ v = 1 \/ v = 2 \/ v = 3 \/ v = 4 \/ v = 5 \/ v = 6 \/ v = 7 \/
          v = 8 \/ v = 9 \/ v = 10 \/ v = 11 \/ v = 12 \/ v = 13 \/ v = 14 \/
          v = 15)%Z as Hv by lia.
  repeat destruct Hv as [-> | Hv]; try subst v; reflexivity.
Qed.

Lemma hex_lower (b : list Z) :
  forallb lower_hex (GoStd.bytes_of (GoStd.hex b)) = true.
Proof.
  induction b as [|x b IH]; simpl; [done |].
  by rewrite !hex_digit_lower, IH.
Qed.

End NameShape.

(** X13: whatever the file name of the upload, slashes and dots in it or
    not, the name under which add records and saves the image is 64 digits
    of lower-case hexadecimal followed by ".jpg", and the image is written
    at ../images/ followed by that name. *)
Theorem X13_image_name_shape (filename : string) :
  String.length (hashed_name filename) = 68 /\
  String.length (GoStd.hex (SHA256.Sum256 filename)) = 64 /\
  forallb lower_hex (GoStd.bytes_of (GoStd.hex (SHA256.Sum256 filename))) = true /\
  no_slash (hashed_name filename) = true /\
  GoStd.Join Shared.ImgDirRelative (hashed_name filename)
  = "../images/" +:+ hashed_name filename.
Proof.
  assert (String.length (GoStd.hex (SHA256.Sum256 filename)) = 64) as H64.
  { by rewrite hex_length, Sum256_length. }
  repeat split.
  - unfold hashed_name. rewrite length_app_string, H64. reflexivity.
  - exact H64.
  - apply hex_lower.
  - apply hashed_name_no_slash.
  - apply save_path.
Qed.

(** ** Fetch outside the image directory *)

Lemma Join_images_up (x : string) :
  no_slash x = true ->
  String.eqb x "" = false -> String.eqb x "." = false -> String.eqb x ".." = false ->
  GoStd.Join "images" ("../" +:+ x) = x.
Proof.
  intros Hs H0 H1 H2. unfold GoStd.Join. simpl String.eqb. cbv iota.
  unfold GoStd.Clean.
  change ("images" +:+ "/" +:+ "../" +:+ x)
    with ("images" +:+ String "/" (".." +:+ String "/" x)).
  rewrite !split_slash_app by reflexivity.
  rewrite (split_slash_no_slash x Hs).
  simpl. rewrite H0, H1, H2. simpl. by rewrite H0.
Qed.

(** X14: fetch is not held to the image directory.  For a name [x] of one
    path element that ends in ".jpg", the request for "../" followed by
    [x] is answered with the bytes of the file [x] of the working
    directory, beside the image directory. *)
Theorem X14_fetch_leaves_image_directory {I : Type} (g : Context) (w : world)
    (x data : string) (wr : bool) :
  Param g "imageFilename" = "../" +:+ x ->
  no_slash x = true ->
  GoStd.HasSuffix x ".jpg" = true ->
  fs w !! x = Some (Reg true wr data) ->
  (Shared.getImg (I := I) g w).1 = Respond StatusOK (Blob data).
Proof.
  intros Hp Hs Hj Hf. unfold Shared.getImg, Shared.ImgDir. rewrite Hp.
  destruct (jpg_element _ Hj) as (H0 & H1 & H2).
  rewrite Join_images_up by done. rewrite Hj. simpl negb. cbv iota.
  unfold os_Stat, c_File, os_Open. by rewrite Hf.
Qed.

Lemma X14_fetch_leaves_image_directory_witness :
  (V1.getImg (Sample.fetch "../secret.jpg") Sample2.with_secret).1
  = Respond StatusOK (Blob "not an image of the catalog").
Proof.
  apply (X14_fetch_leaves_image_directory (I := V1.Item)
           (Sample.fetch "../secret.jpg") Sample2.with_secret "secret.jpg"
           "not an image of the catalog" true); reflexivity.
Defined.

(** ** Add, then fetch *)

(** X15: in go/app/main.go add saves the image under ../images and fetch
    reads under images.  When images holds no file of the recorded name,
    the fetch of that name after the add is answered with the default
    image, not with the upload. *)
Theorem X15_fetch_after_add_is_default {json : JSON V1.Items} (c g : Context)
    (w : world) (image : FileHeader) (wr : bool) (data : string) :
  FormFile c "image" = inl image ->
  Param g "imageFilename" = hashed_name (Filename image) ->
  fs w !! ("images/" +:+ hashed_name (Filename image)) = None ->
  fs w !! "images/default.jpg" = Some (Reg true wr data) ->
  (V1.getImg g (V1.addItem c w).2).1 = Respond StatusOK (Blob data).
Proof.
  intros Hform Hp Hnone Hdef.
  assert (forall p, p <> V1.ItemFile ->
            p <> "../images/" +:+ hashed_name (Filename image) ->
            fs (V1.addItem c w).2 !! p = fs w !! p) as Hframe.
  { intros p H1 H2. rewrite (V1_addItem_world c w image Hform).
    unfold V1.saveImageToLocal. rewrite save_frame by done.
    by rewrite V1_updateJson_frame. }
  unfold V1.getImg, Shared.getImg, Shared.ImgDir. rewrite Hp.
  pose proof (hashed_name_jpg (Filename image)) as Hj.
  destruct (jpg_element _ Hj) as (H0 & H1 & H2).
  rewrite Join_images by (done || apply hashed_name_no_slash).
  assert (GoStd.HasSuffix ("images/" +:+ hashed_name (Filename image)) ".jpg" = true)
    as -> by (apply HasSuffix_spec;
              by exists ("images/" +:+ GoStd.hex (SHA256.Sum256 (Filename image)))).
  simpl negb. cbv iota. unfold os_Stat.
  rewrite Hframe by discriminate. rewrite Hnone.
  change (GoStd.Join "images" "default.jpg") with "images/default.jpg".
  change (Logf "DEBUG" ?m ?v) with v.
  unfold c_File, os_Open. rewrite Hframe by discriminate. by rewrite Hdef.
Qed.

Section X15_runs.
#[local] Existing Instance PlainJSON.json_V1.

Lemma X15_fetch_after_add_is_default_witness :
  (V1.getImg (Sample.fetch (hashed_name "shoes.jpg"))
     (V1.addItem Sample.shoes Sample.fresh).2).1
  = Respond StatusOK (Blob "default image").
Proof.
  apply (X15_fetch_after_add_is_default Sample.shoes
           (Sample.fetch (hashed_name "shoes.jpg")) Sample.fresh
           (PlainJSON.upload "shoes.jpg" "shoes, first photo") true);
    vm_compute; reflexivity.
Defined.

End X15_runs.

(** ** An upload the catalog refuses *)

(** X16: in go/app/main.go the image is saved whether or not the catalog
    took the item.  For a file name that does not end in ".jpg" the
    catalog is left as it was, and the upload is still written to
    ../images, under hex(SHA-256(file name)) + ".jpg". *)
Theorem X16_rejected_upload_still_saved {json : JSON V1.Items} (c : Context)
    (w : world) (image : FileHeader) (src : reader) :
  FormFile c "image" = inl image ->
  GoStd.HasSuffix (Filename image) ".jpg" = false ->
  Open image = inl src ->
  r_fails src = false ->
  can_store ("../images/" +:+ hashed_name (Filename image)) (fs w) ->
  fs (V1.addItem c w).2 !! V1.ItemFile = fs w !! V1.ItemFile /\
  exists r wr,
    fs (V1.addItem c w).2 !! ("../images/" +:+ hashed_name (Filename image))
    = Some (Reg r wr (r_data src)).
Proof.
  intros Hform Hext Hopen Hread Hstore. split.
  - rewrite (V1_addItem_catalog c w image Hform).
    by rewrite V1_updateJson_rejects.
  - rewrite (V1_addItem_world c w image Hform).
    rewrite V1_updateJson_rejects by done.
    apply can_store_Create in Hstore as [fs1 Hc].
    apply (save_stores image src (received c image w) fs1 Hopen Hread Hc).
Qed.

Section X16_runs.
#[local] Existing Instance PlainJSON.json_V1.

Lemma X16_rejected_upload_still_saved_witness :
  fs (V1.addItem Sample.shoes_png Sample.fresh).2 !! V1.ItemFile
  = fs Sample.fresh !! V1.ItemFile /\
  exists r wr,
    fs (V1.addItem Sample.shoes_png Sample.fresh).2
      !! ("../images/" +:+ hashed_name "shoes.png")
    = Some (Reg r wr "a png").
Proof.
  apply (X16_rejected_upload_still_saved Sample.shoes_png Sample.fresh
           (PlainJSON.upload "shoes.png" "a png")
           {| r_data := "a png"; r_fails := false |});
    vm_compute; reflexivity.
Defined.

End X16_runs.

(** ** The two tests of the extension *)



